(** * Security property policies of rmw_fastrtps_shared_cpp

    A shallow embedding of [rmw_security.cpp] and [rmw_security_logging.cpp]:
    the discovery of the security files below a root directory, the parsing
    of the XML logging descriptor and the construction of the property
    sequence handed to Fast-RTPS.

    The two translation units keep private copies of the same helpers in
    anonymous namespaces; they appear here as the modules [Security] and
    [SecurityLogging]. *)

From Stdlib Require Import String Ascii List ZArith NArith Bool Lia DecimalString.
Import ListNotations.
Open Scope string_scope.
Open Scope list_scope.

(** ** What the code takes from other packages *)

(** [rmw_qos_profile_t] of rmw/types.h. The repository reads its [depth]
    (a [size_t]) and nothing else. *)
Record rmw_qos_profile_t := { depth : N }.

(** Constants of headers that are not part of this repository: the
    [HAVE_SECURITY] switch of fastrtps/config.h, [RMW_RET_ERROR] of
    rmw/ret_types.h and the six profiles of rmw/qos_profiles.h. They are
    parameters of the development. *)
Class RmwHeaders := {
  HAVE_SECURITY : bool;
  RMW_RET_ERROR : Z;
  rmw_qos_profile_sensor_data : rmw_qos_profile_t;
  rmw_qos_profile_parameters : rmw_qos_profile_t;
  rmw_qos_profile_default : rmw_qos_profile_t;
  rmw_qos_profile_services_default : rmw_qos_profile_t;
  rmw_qos_profile_parameter_events : rmw_qos_profile_t;
  rmw_qos_profile_system_default : rmw_qos_profile_t
}.

(** A C++ function declared [bool] that returns an integer returns whether
    the integer is not zero. *)
Definition bool_of_int (z : Z) : bool := negb (z =? 0)%Z.

(** [std::to_string] on a [size_t]: the decimal digits. *)
Definition to_string (n : N) : string := NilEmpty.string_of_uint (N.to_uint n).

(** [eprosima::fastrtps::rtps::Property] and [PropertySeq], a
    [std::vector<Property>]. *)
Record Property := mkProperty { name : string; value : string }.

Definition PropertySeq := list Property.

(** [PropertyPolicy]: this code only touches [policy.properties()]. *)
Record PropertyPolicy := { properties : PropertySeq }.

(** [policy.properties().emplace_back(property)] *)
Definition emplace_back (policy : PropertyPolicy) (property : Property) : PropertyPolicy :=
  {| properties := properties policy ++ [property] |}.

(** The names of a sequence, in order. *)
Definition names (ps : PropertySeq) : list string := map name ps.

Set Warnings "-register-all".

(** tinyxml2's document tree: a node is the document, an element, a text,
    a comment, a declaration or an unknown node; documents and elements
    have children. *)
Inductive XMLNode : Type :=
| XMLDocument (Children : list XMLNode)
| XMLElement (Name : string) (Attributes : list (string * string)) (Children : list XMLNode)
| XMLText (Value : string)
| XMLComment (Value : string)
| XMLDeclaration (Value : string)
| XMLUnknown (Value : string).

Definition Children (node : XMLNode) : list XMLNode :=
  match node with
  | XMLDocument c | XMLElement _ _ c => c
  | _ => []
  end.

Definition ToElementWithName (node : XMLNode) (tag_name : string) : bool :=
  match node with
  | XMLElement n _ _ => String.eqb n tag_name
  | _ => false
  end.

Fixpoint FirstElementNamed (nodes : list XMLNode) (tag_name : string) : option XMLNode :=
  match nodes with
  | [] => None
  | node :: next =>
      if ToElementWithName node tag_name then Some node
      else FirstElementNamed next tag_name
  end.

(** [XMLNode::FirstChildElement(name)]: the first child that is an element
    of that name, a null pointer when there is none. *)
Definition FirstChildElement (node : XMLNode) (tag_name : string) : option XMLNode :=
  FirstElementNamed (Children node) tag_name.

(** [XMLElement::GetText()]: the text of the first child when that child is
    a text node, a null pointer otherwise. *)
Definition GetText (element : XMLNode) : option string :=
  match Children element with
  | XMLText text :: _ => Some text
  | _ => None
  end.

(** The machine the code runs on: rcutils' path join (null when it cannot
    allocate) and readability test, and for each path the nodes tinyxml2
    parses from the file there, [None] when the file cannot be read or is
    not XML. *)
Record FileSystem := {
  rcutils_join_path : string -> string -> option string;
  rcutils_is_readable : string -> bool;
  xml_file : string -> option (list XMLNode)
}.

(** The document after [XMLDocument::LoadFile]: it holds the nodes of the
    file, and no node after an error. The callers drop the error code that
    [LoadFile] returns. *)
Definition LoadFile (fs : FileSystem) (xml_file_path : string) : XMLNode :=
  match xml_file fs xml_file_path with
  | Some nodes => XMLDocument nodes
  | None => XMLDocument []
  end.

(** ** The rmw error slot *)

(** rmw keeps the last error message in a slot of its own; the functions
    below return [bool] and report through that slot. A computation reads
    the slot and returns its result with the slot's new content. *)
Definition rmw_error_state := option string.

Definition Rmw (A : Type) : Type := rmw_error_state -> A * rmw_error_state.

Definition ret {A} (a : A) : Rmw A := fun e => (a, e).

Definition bind {A B} (c : Rmw A) (k : A -> Rmw B) : Rmw B :=
  fun e => let (a, e') := c e in k a e'.

Notation "x <- c ;; k" := (bind c (fun x => k))
  (at level 61, c at next level, right associativity).
Notation "' pat <- c ;; k" := (bind c (fun x => match x with pat => k end))
  (at level 61, pat pattern, c at next level, right associativity).
Notation "c ;; k" := (bind c (fun _ => k))
  (at level 61, right associativity).

Definition RMW_SET_ERROR_MSG (msg : string) : Rmw unit :=
  fun _ => (tt, Some msg).

(** The message is formatted by the caller of this definition. rcutils
    cuts a message at a fixed length, which is longer than the messages of
    the fixed tags; the cut is not part of the model, and the statements
    below quote a profile name in a message only at sample inputs with
    short names. *)
Definition RMW_SET_ERROR_MSG_WITH_FORMAT_STRING (msg : string) : Rmw unit :=
  fun _ => (tt, Some msg).

Definition rmw_error_is_set (e : rmw_error_state) : bool :=
  match e with Some _ => true | None => false end.

(** [rmw_node_security_options_t] of rmw/types.h. *)
Record rmw_node_security_options_t := {
  enforce_security : bool;
  security_root_path : option string
}.

(** The line feed inside the message about a build without security. *)
Definition LF : string := String (ascii_of_nat 10) EmptyString.

Definition security_unavailable_message : string :=
  ("This Fast-RTPS version doesn't have the security libraries" ++ LF ++
   "Please compile Fast-RTPS using the -DSECURITY=ON CMake option")%string.

(** ** rmw_security.cpp *)

Module Security.

(** File names *)
Definition identity_ca_cert_file_name : string := "identity_ca.cert.pem".
Definition permissions_ca_cert_file_name : string := "permissions_ca.cert.pem".
Definition governance_file_name : string := "governance.p7s".
Definition cert_file_name : string := "cert.pem".
Definition key_file_name : string := "key.pem".
Definition permissions_file_name : string := "permissions.p7s".
Definition logging_file_name : string := "logging.xml".

(** Logging properties *)
Definition logging_plugin_property_name : string := "dds.sec.log.plugin".
Definition log_file_property_name : string := "dds.sec.log.builtin.DDS_LogTopic.log_file".
Definition verbosity_property_name : string := "dds.sec.log.builtin.DDS_LogTopic.logging_level".
Definition distribute_enable_property_name : string :=
  "dds.sec.log.builtin.DDS_LogTopic.distribute".
Definition distribute_depth_property_name : string :=
  "com.rti.serv.secure.logging.distribute.writer_history_depth".

Record security_files_t := {
  identity_ca_cert_path : string;
  permissions_ca_cert_path : string;
  governance_path : string;
  cert_path : string;
  key_path : string;
  permissions_path : string;
  logging_path : string
}.

(** A default-constructed [security_files_t]: seven empty strings. *)
Definition security_files_default : security_files_t :=
  {| identity_ca_cert_path := ""; permissions_ca_cert_path := ""; governance_path := "";
     cert_path := ""; key_path := ""; permissions_path := ""; logging_path := "" |}.

(** Assignments to one member of the structure. *)
Definition set_identity_ca_cert_path (s : security_files_t) (v : string) :=
  {| identity_ca_cert_path := v; permissions_ca_cert_path := permissions_ca_cert_path s;
     governance_path := governance_path s; cert_path := cert_path s; key_path := key_path s;
     permissions_path := permissions_path s; logging_path := logging_path s |}.
Definition set_permissions_ca_cert_path (s : security_files_t) (v : string) :=
  {| identity_ca_cert_path := identity_ca_cert_path s; permissions_ca_cert_path := v;
     governance_path := governance_path s; cert_path := cert_path s; key_path := key_path s;
     permissions_path := permissions_path s; logging_path := logging_path s |}.
Definition set_governance_path (s : security_files_t) (v : string) :=
  {| identity_ca_cert_path := identity_ca_cert_path s;
     permissions_ca_cert_path := permissions_ca_cert_path s;
     governance_path := v; cert_path := cert_path s; key_path := key_path s;
     permissions_path := permissions_path s; logging_path := logging_path s |}.
Definition set_cert_path (s : security_files_t) (v : string) :=
  {| identity_ca_cert_path := identity_ca_cert_path s;
     permissions_ca_cert_path := permissions_ca_cert_path s;
     governance_path := governance_path s; cert_path := v; key_path := key_path s;
     permissions_path := permissions_path s; logging_path := logging_path s |}.
Definition set_key_path (s : security_files_t) (v : string) :=
  {| identity_ca_cert_path := identity_ca_cert_path s;
     permissions_ca_cert_path := permissions_ca_cert_path s;
     governance_path := governance_path s; cert_path := cert_path s; key_path := v;
     permissions_path := permissions_path s; logging_path := logging_path s |}.
Definition set_permissions_path (s : security_files_t) (v : string) :=
  {| identity_ca_cert_path := identity_ca_cert_path s;
     permissions_ca_cert_path := permissions_ca_cert_path s;
     governance_path := governance_path s; cert_path := cert_path s; key_path := key_path s;
     permissions_path := v; logging_path := logging_path s |}.
Definition set_logging_path (s : security_files_t) (v : string) :=
  {| identity_ca_cert_path := identity_ca_cert_path s;
     permissions_ca_cert_path := permissions_ca_cert_path s;
     governance_path := governance_path s; cert_path := cert_path s; key_path := key_path s;
     permissions_path := permissions_path s; logging_path := v |}.

(** Add property to vector. If property already exists, overwrite it. *)
Fixpoint add_property (properties : PropertySeq) (property : Property) : PropertySeq :=
  match properties with
  | [] => [property]
  | existing_property :: rest =>
      if String.eqb (name existing_property) (name property)
      then property :: rest
      else existing_property :: add_property rest property
  end.

(** The text is a null pointer ([None]) or a C string. *)
Definition add_property_from_xml_element (properties : PropertySeq) (property_name : string)
    (element : XMLNode) (tag_name : string) : Rmw (bool * PropertySeq) :=
  match FirstChildElement element tag_name with
  | Some tag =>
      match GetText tag with
      | None =>
          RMW_SET_ERROR_MSG_WITH_FORMAT_STRING
            ("failed to set security logging " ++ tag_name ++ ": improper format")%string ;;
          ret (false, properties)
      | Some text =>
          ret (true, add_property properties (mkProperty property_name text))
      end
  | None => ret (true, properties)
  end.

Definition add_properties_from_qos_profile (properties : PropertySeq)
    (profile : rmw_qos_profile_t) : PropertySeq :=
  add_property properties
    (mkProperty distribute_depth_property_name (to_string (depth profile))).

(** The path is written to the caller's string only when the function
    returns true: [Some] carries it. *)
Definition get_security_file_path (fs : FileSystem) (node_secure_root file_name : string)
    : option string :=
  match rcutils_join_path fs node_secure_root file_name with
  | None => None
  | Some file_path =>
      if rcutils_is_readable fs file_path then Some file_path else None
  end.

Definition path_to_uri (file_path : string) : string := ("file://" ++ file_path)%string.

(** The structure is the caller's: what was assigned before a failing
    lookup stays in it. *)
Definition get_security_file_paths (fs : FileSystem) (node_secure_root : string)
    (security_files : security_files_t) : bool * security_files_t :=
  match get_security_file_path fs node_secure_root identity_ca_cert_file_name with
  | None => (false, security_files)
  | Some file_path =>
  let security_files := set_identity_ca_cert_path security_files file_path in
  match get_security_file_path fs node_secure_root permissions_ca_cert_file_name with
  | None => (false, security_files)
  | Some file_path =>
  let security_files := set_permissions_ca_cert_path security_files file_path in
  match get_security_file_path fs node_secure_root governance_file_name with
  | None => (false, security_files)
  | Some file_path =>
  let security_files := set_governance_path security_files file_path in
  match get_security_file_path fs node_secure_root cert_file_name with
  | None => (false, security_files)
  | Some file_path =>
  let security_files := set_cert_path security_files file_path in
  match get_security_file_path fs node_secure_root key_file_name with
  | None => (false, security_files)
  | Some file_path =>
  let security_files := set_key_path security_files file_path in
  match get_security_file_path fs node_secure_root permissions_file_name with
  | None => (false, security_files)
  | Some file_path =>
  let security_files := set_permissions_path security_files file_path in
  (* Missing the logging configuration file is non-fatal *)
  match get_security_file_path fs node_secure_root logging_file_name with
  | Some file_path => (true, set_logging_path security_files file_path)
  | None => (true, security_files)
  end end end end end end end.

Section WithHeaders.
Context `{RmwHeaders}.

Definition supported_profiles : list (string * rmw_qos_profile_t) :=
  [ ("SENSOR_DATA", rmw_qos_profile_sensor_data);
    ("PARAMETERS", rmw_qos_profile_parameters);
    ("DEFAULT", rmw_qos_profile_default);
    ("SERVICES_DEFAULT", rmw_qos_profile_services_default);
    ("PARAMETER_EVENTS", rmw_qos_profile_parameter_events);
    ("SYSTEM_DEFAULT", rmw_qos_profile_system_default) ].

Fixpoint profile_named (items : list (string * rmw_qos_profile_t)) (str : string)
    : option rmw_qos_profile_t :=
  match items with
  | [] => None
  | item :: rest =>
      if String.eqb (fst item) str then Some (snd item) else profile_named rest str
  end.

(** The profile is written only when the function returns true. *)
Definition string_to_rmw_qos_profile (str : string) : option rmw_qos_profile_t :=
  profile_named supported_profiles str.

(** The result is the returned [bool] with the caller's policy after the
    call. *)
Definition apply_logging_configuration_from_file (fs : FileSystem) (xml_file_path : string)
    (policy : PropertyPolicy) : Rmw (bool * PropertyPolicy) :=
  if HAVE_SECURITY then
    let policy_properties := properties policy in
    let document := LoadFile fs xml_file_path in
    match FirstChildElement document "security_log" with
    | None =>
        RMW_SET_ERROR_MSG "logger xml file missing 'security_log'" ;;
        ret (bool_of_int RMW_RET_ERROR, policy)
    | Some log_element =>
        let properties := add_property []
          (mkProperty logging_plugin_property_name "builtin.DDS_LogTopic") in
        '(status, properties) <-
          add_property_from_xml_element properties log_file_property_name log_element "file" ;;
        if negb status then ret (status, policy) else
        '(status, properties) <-
          add_property_from_xml_element properties verbosity_property_name
            log_element "verbosity" ;;
        if negb status then ret (status, policy) else
        '(status, properties) <-
          add_property_from_xml_element properties distribute_enable_property_name
            log_element "distribute" ;;
        if negb status then ret (status, policy) else
        '(status, properties) <-
          match FirstChildElement log_element "qos" with
          | Some qos_element =>
              (* First thing we need to do is apply any QoS profile that was specified.
                 Once that has happened, further settings can be applied to customize. *)
              '(status, properties) <-
                match FirstChildElement qos_element "profile" with
                | Some profile_element =>
                    match GetText profile_element with
                    | None =>
                        RMW_SET_ERROR_MSG
                          "failed to set security logging profile: improper format" ;;
                        ret (false, properties)
                    | Some profile_str =>
                        match string_to_rmw_qos_profile profile_str with
                        | None =>
                            RMW_SET_ERROR_MSG_WITH_FORMAT_STRING
                              ("failed to set security logging profile: " ++ profile_str ++
                               " is not a supported profile")%string ;;
                            ret (false, properties)
                        | Some profile =>
                            ret (true, add_properties_from_qos_profile properties profile)
                        end
                    end
                | None => ret (true, properties)
                end ;;
              if negb status then ret (false, properties) else
              add_property_from_xml_element properties distribute_depth_property_name
                qos_element "depth"
          | None => ret (true, properties)
          end ;;
        if negb status then ret (status, policy) else
        (* Now that we're done parsing, actually update the properties *)
        ret (true, {| properties := fold_left add_property properties policy_properties |})
    end
  else
    RMW_SET_ERROR_MSG security_unavailable_message ;;
    ret (false, policy).

(** The result is the returned [bool] with the caller's policy after the
    call. *)
Definition apply_security_options (fs : FileSystem)
    (security_options : rmw_node_security_options_t) (policy : PropertyPolicy)
    : Rmw (bool * PropertyPolicy) :=
  match security_root_path security_options with
  | Some root_path =>
      (* if security_root_path provided, try to find the key and certificate files *)
      if HAVE_SECURITY then
        let '(found, security_files) :=
          get_security_file_paths fs root_path security_files_default in
        if found then
          let policy := emplace_back policy
            (mkProperty "dds.sec.auth.plugin" "builtin.PKI-DH") in
          let policy := emplace_back policy
            (mkProperty "dds.sec.auth.builtin.PKI-DH.identity_ca"
               (path_to_uri (identity_ca_cert_path security_files))) in
          let policy := emplace_back policy
            (mkProperty "dds.sec.auth.builtin.PKI-DH.identity_certificate"
               (path_to_uri (cert_path security_files))) in
          let policy := emplace_back policy
            (mkProperty "dds.sec.auth.builtin.PKI-DH.private_key"
               (path_to_uri (key_path security_files))) in
          let policy := emplace_back policy
            (mkProperty "dds.sec.crypto.plugin" "builtin.AES-GCM-GMAC") in
          let policy := emplace_back policy
            (mkProperty "dds.sec.access.plugin" "builtin.Access-Permissions") in
          let policy := emplace_back policy
            (mkProperty "dds.sec.access.builtin.Access-Permissions.permissions_ca"
               (path_to_uri (permissions_ca_cert_path security_files))) in
          let policy := emplace_back policy
            (mkProperty "dds.sec.access.builtin.Access-Permissions.governance"
               (path_to_uri (governance_path security_files))) in
          let policy := emplace_back policy
            (mkProperty "dds.sec.access.builtin.Access-Permissions.permissions"
               (path_to_uri (permissions_path security_files))) in
          if negb (String.eqb (logging_path security_files) "") then
            '(applied, policy) <-
              apply_logging_configuration_from_file fs (logging_path security_files) policy ;;
            if negb applied then ret (false, policy) else ret (true, policy)
          else ret (true, policy)
        else if enforce_security security_options then
          RMW_SET_ERROR_MSG "couldn't find all security files!" ;;
          ret (false, policy)
        else ret (true, policy)
      else
        RMW_SET_ERROR_MSG security_unavailable_message ;;
        ret (false, policy)
  | None => ret (true, policy)
  end.

End WithHeaders.

End Security.

(** ** rmw_security_logging.cpp *)

Module SecurityLogging.

Definition logging_plugin_property_name : string := "dds.sec.log.plugin".
Definition log_file_property_name : string := "dds.sec.log.builtin.DDS_LogTopic.log_file".
Definition verbosity_property_name : string :=
  "dds.sec.log.builtin.DDS_LogTopic.event_log_level".
Definition distribute_enable_property_name : string :=
  "dds.sec.log.builtin.DDS_LogTopic.distribute".
Definition distribute_depth_property_name : string :=
  "com.rti.serv.secure.logging.distribute.writer_history_depth".

(** Add property to vector. If property already exists, overwrite it. *)
Fixpoint add_property (properties : PropertySeq) (property : Property) : PropertySeq :=
  match properties with
  | [] => [property]
  | existing_property :: rest =>
      if String.eqb (name existing_property) (name property)
      then property :: rest
      else existing_property :: add_property rest property
  end.

Definition add_property_from_xml_element (properties : PropertySeq) (property_name : string)
    (element : XMLNode) (tag_name : string) : Rmw (bool * PropertySeq) :=
  match FirstChildElement element tag_name with
  | Some tag =>
      match GetText tag with
      | None =>
          RMW_SET_ERROR_MSG_WITH_FORMAT_STRING
            ("failed to set security logging " ++ tag_name ++ ": improper format")%string ;;
          ret (false, properties)
      | Some text =>
          ret (true, add_property properties (mkProperty property_name text))
      end
  | None => ret (true, properties)
  end.

Definition add_properties_from_qos_profile (properties : PropertySeq)
    (profile : rmw_qos_profile_t) : PropertySeq :=
  add_property properties
    (mkProperty distribute_depth_property_name (to_string (depth profile))).

Section WithHeaders.
Context `{RmwHeaders}.

Definition supported_profiles : list (string * rmw_qos_profile_t) :=
  [ ("SENSOR_DATA", rmw_qos_profile_sensor_data);
    ("PARAMETERS", rmw_qos_profile_parameters);
    ("DEFAULT", rmw_qos_profile_default);
    ("SERVICES_DEFAULT", rmw_qos_profile_services_default);
    ("PARAMETER_EVENTS", rmw_qos_profile_parameter_events);
    ("SYSTEM_DEFAULT", rmw_qos_profile_system_default) ].

Fixpoint profile_named (items : list (string * rmw_qos_profile_t)) (str : string)
    : option rmw_qos_profile_t :=
  match items with
  | [] => None
  | item :: rest =>
      if String.eqb (fst item) str then Some (snd item) else profile_named rest str
  end.

Definition string_to_rmw_qos_profile (str : string) : option rmw_qos_profile_t :=
  profile_named supported_profiles str.

(** The result is the returned [bool] with the caller's sequence after the
    call. *)
Definition apply_logging_configuration_from_file (fs : FileSystem) (xml_file_path : string)
    (properties : PropertySeq) : Rmw (bool * PropertySeq) :=
  let document := LoadFile fs xml_file_path in
  match FirstChildElement document "security_log" with
  | None =>
      RMW_SET_ERROR_MSG "logger xml file missing 'security_log'" ;;
      ret (bool_of_int RMW_RET_ERROR, properties)
  | Some log_element =>
      let new_properties := add_property []
        (mkProperty logging_plugin_property_name "builtin.DDS_LogTopic") in
      '(status, new_properties) <-
        add_property_from_xml_element new_properties log_file_property_name
          log_element "file" ;;
      if negb status then ret (status, properties) else
      '(status, new_properties) <-
        add_property_from_xml_element new_properties verbosity_property_name
          log_element "verbosity" ;;
      if negb status then ret (status, properties) else
      '(status, new_properties) <-
        add_property_from_xml_element new_properties distribute_enable_property_name
          log_element "distribute" ;;
      if negb status then ret (status, properties) else
      '(status, new_properties) <-
        match FirstChildElement log_element "qos" with
        | Some qos_element =>
            (* First thing we need to do is apply any QoS profile that was specified.
               Once that has happened, further settings can be applied to customize. *)
            '(status, new_properties) <-
              match FirstChildElement qos_element "profile" with
              | Some profile_element =>
                  match GetText profile_element with
                  | None =>
                      RMW_SET_ERROR_MSG
                        "failed to set security logging profile: improper format" ;;
                      ret (false, new_properties)
                  | Some profile_str =>
                      match string_to_rmw_qos_profile profile_str with
                      | None =>
                          RMW_SET_ERROR_MSG_WITH_FORMAT_STRING
                            ("failed to set security logging profile: " ++ profile_str ++
                             " is not a supported profile")%string ;;
                          ret (false, new_properties)
                      | Some profile =>
                          ret (true, add_properties_from_qos_profile new_properties profile)
                      end
                  end
              | None => ret (true, new_properties)
              end ;;
            if negb status then ret (false, new_properties) else
            add_property_from_xml_element new_properties distribute_depth_property_name
              qos_element "depth"
        | None => ret (true, new_properties)
        end ;;
      if negb status then ret (status, properties) else
      (* Now that we're done parsing, actually update the properties *)
      ret (true, fold_left add_property new_properties properties)
  end.

End WithHeaders.

End SecurityLogging.

(** ** The test file's lookup *)

(** [lookup_property] of test_security_logging_xml.cpp: [std::find_if] on
    the name, the first entry found. *)
Fixpoint lookup_property (properties : PropertySeq) (property_name : string)
    : option Property :=
  match properties with
  | [] => None
  | item :: rest =>
      if String.eqb (name item) property_name then Some item
      else lookup_property rest property_name
  end.

(** ** Vocabulary of the statements *)

(** What a call returned, what it left in the caller's collection and what
    it left in the error slot. *)
Definition returned {A : Type} (r : bool * A * rmw_error_state) : bool := fst (fst r).
Definition updated {A : Type} (r : bool * A * rmw_error_state) : A := snd (fst r).
Definition reported {A : Type} (r : bool * A * rmw_error_state) : rmw_error_state := snd r.

(** The child [tag_name] of [element] is there and [GetText] gives a null
    pointer for it. *)
Definition present_without_text (element : XMLNode) (tag_name : string) : bool :=
  match FirstChildElement element tag_name with
  | Some tag => match GetText tag with Some _ => false | None => true end
  | None => false
  end.

(** The child [tag_name] of [element] is absent or carries a text. *)
Definition absent_or_text (element : XMLNode) (tag_name : string) : bool :=
  negb (present_without_text element tag_name).

(** The six names of [supported_profiles]. *)
Definition catalog_names : list string :=
  ["SENSOR_DATA"; "PARAMETERS"; "DEFAULT"; "SERVICES_DEFAULT"; "PARAMETER_EVENTS";
   "SYSTEM_DEFAULT"].

(** The profile child of a qos element is absent, or its text names a
    profile of the catalog. *)
Definition profile_resolves `{RmwHeaders} (qos_element : XMLNode) : bool :=
  match FirstChildElement qos_element "profile" with
  | Some profile_element =>
      match GetText profile_element with
      | Some profile_str =>
          match SecurityLogging.string_to_rmw_qos_profile profile_str with
          | Some _ => true
          | None => false
          end
      | None => false
      end
  | None => true
  end.

(** No step of the parser fails on the children of [log_element]. *)
Definition descriptor_well_formed `{RmwHeaders} (log_element : XMLNode) : bool :=
  absent_or_text log_element "file" &&
  absent_or_text log_element "verbosity" &&
  absent_or_text log_element "distribute" &&
  match FirstChildElement log_element "qos" with
  | Some qos_element => profile_resolves qos_element && absent_or_text qos_element "depth"
  | None => true
  end.

(** The nine properties [apply_security_options] appends for a resolved
    set of files, in the order of the [emplace_back] calls. *)
Definition core_properties (security_files : Security.security_files_t) : PropertySeq :=
  [ mkProperty "dds.sec.auth.plugin" "builtin.PKI-DH";
    mkProperty "dds.sec.auth.builtin.PKI-DH.identity_ca"
      ("file://" ++ Security.identity_ca_cert_path security_files)%string;
    mkProperty "dds.sec.auth.builtin.PKI-DH.identity_certificate"
      ("file://" ++ Security.cert_path security_files)%string;
    mkProperty "dds.sec.auth.builtin.PKI-DH.private_key"
      ("file://" ++ Security.key_path security_files)%string;
    mkProperty "dds.sec.crypto.plugin" "builtin.AES-GCM-GMAC";
    mkProperty "dds.sec.access.plugin" "builtin.Access-Permissions";
    mkProperty "dds.sec.access.builtin.Access-Permissions.permissions_ca"
      ("file://" ++ Security.permissions_ca_cert_path security_files)%string;
    mkProperty "dds.sec.access.builtin.Access-Permissions.governance"
      ("file://" ++ Security.governance_path security_files)%string;
    mkProperty "dds.sec.access.builtin.Access-Permissions.permissions"
      ("file://" ++ Security.permissions_path security_files)%string ].

(** The names of the nine core properties. *)
Definition core_names : list string :=
  [ "dds.sec.auth.plugin";
    "dds.sec.auth.builtin.PKI-DH.identity_ca";
    "dds.sec.auth.builtin.PKI-DH.identity_certificate";
    "dds.sec.auth.builtin.PKI-DH.private_key";
    "dds.sec.crypto.plugin";
    "dds.sec.access.plugin";
    "dds.sec.access.builtin.Access-Permissions.permissions_ca";
    "dds.sec.access.builtin.Access-Permissions.governance";
    "dds.sec.access.builtin.Access-Permissions.permissions" ].

(** The six mandatory file names, in the order they are looked up. *)
Definition mandatory_file_names : list string :=
  [ Security.identity_ca_cert_file_name; Security.permissions_ca_cert_file_name;
    Security.governance_file_name; Security.cert_file_name; Security.key_file_name;
    Security.permissions_file_name ].

(** The security module's verbosity name read as the logging module's. *)
Definition rename_verbosity (p : Property) : Property :=
  if String.eqb (name p) Security.verbosity_property_name
  then mkProperty SecurityLogging.verbosity_property_name (value p)
  else p.

(** Two entries agree up to the verbosity name. *)
Definition same_entry (p q : Property) : Prop :=
  value p = value q /\
  (name p = name q \/
   (name p = Security.verbosity_property_name /\
    name q = SecurityLogging.verbosity_property_name)).

(** Operations on a property sequence: an upsert, the merge of another
    sequence, and a pass of either logging parser. *)
Inductive operation : Type :=
| Upsert (property : Property)
| Merge (other : PropertySeq)
| ParseLogging (fs : FileSystem) (xml_file_path : string) (e : rmw_error_state)
| ParseLoggingIntoPolicy (fs : FileSystem) (xml_file_path : string) (e : rmw_error_state).

Definition perform `{RmwHeaders} (ps : PropertySeq) (op : operation) : PropertySeq :=
  match op with
  | Upsert property => SecurityLogging.add_property ps property
  | Merge other => fold_left SecurityLogging.add_property other ps
  | ParseLogging fs xml_file_path e =>
      updated (SecurityLogging.apply_logging_configuration_from_file fs xml_file_path ps e)
  | ParseLoggingIntoPolicy fs xml_file_path e =>
      properties (updated (Security.apply_logging_configuration_from_file fs xml_file_path
                             {| properties := ps |} e))
  end.

(** The text of the child [tag_name] of [element], when the child is there
    and has one. *)
Definition field_text (element : XMLNode) (tag_name : string) : option string :=
  match FirstChildElement element tag_name with
  | Some tag => GetText tag
  | None => None
  end.

(** The entry a field contributes: one property when it has a text. *)
Definition entry (property_name : string) (text : option string) : PropertySeq :=
  match text with
  | Some v => [mkProperty property_name v]
  | None => []
  end.

(** The value of the depth property a descriptor asks for: the text of the
    depth child of qos when there is one, else the depth of the profile
    named by the profile child. *)
Definition requested_depth `{RmwHeaders} (log_element : XMLNode) : option string :=
  match FirstChildElement log_element "qos" with
  | Some qos_element =>
      match field_text qos_element "depth" with
      | Some T => Some T
      | None =>
          match field_text qos_element "profile" with
          | Some profile_str =>
              option_map (fun profile => to_string (depth profile))
                (SecurityLogging.string_to_rmw_qos_profile profile_str)
          | None => None
          end
      end
  | None => None
  end.

(** The five property names each parser writes. *)
Definition logging_names : list string :=
  [ SecurityLogging.logging_plugin_property_name; SecurityLogging.log_file_property_name;
    SecurityLogging.verbosity_property_name;
    SecurityLogging.distribute_enable_property_name;
    SecurityLogging.distribute_depth_property_name ].

Definition policy_logging_names : list string :=
  [ Security.logging_plugin_property_name; Security.log_file_property_name;
    Security.verbosity_property_name; Security.distribute_enable_property_name;
    Security.distribute_depth_property_name ].

(** ** Sample inputs *)

(** One instance of the headers: security compiled in, [RMW_RET_ERROR]
    defined as 1 as in rmw/ret_types.h, and depths for the six profiles; the
    10 of the default profile is the depth the test [test_profile] reads
    back. *)
Definition rmw_release : RmwHeaders :=
  {| HAVE_SECURITY := true;
     RMW_RET_ERROR := 1;
     rmw_qos_profile_sensor_data := {| depth := 5 |};
     rmw_qos_profile_parameters := {| depth := 1000 |};
     rmw_qos_profile_default := {| depth := 10 |};
     rmw_qos_profile_services_default := {| depth := 10 |};
     rmw_qos_profile_parameter_events := {| depth := 1000 |};
     rmw_qos_profile_system_default := {| depth := 0 |} |}.

(** The root element the test file's [write_logging_xml] writes around a
    body, and the nodes of the file it writes. *)
Definition security_log (body : list XMLNode) : XMLNode :=
  XMLElement "security_log" [("version", "1")] body.

Definition logging_xml (body : list XMLNode) : option (list XMLNode) :=
  Some [XMLDeclaration "xml version='1.0' encoding='UTF-8'"; security_log body].

Definition element (tag_name : string) (children : list XMLNode) : XMLNode :=
  XMLElement tag_name [] children.

Definition text_element (tag_name text : string) : XMLNode :=
  XMLElement tag_name [] [XMLText text].

(** A root directory in which every file is readable and logging.xml has
    the given content. *)
Definition complete_root (content : option (list XMLNode)) : FileSystem :=
  {| rcutils_join_path := fun base file => Some (base ++ "/" ++ file)%string;
     rcutils_is_readable := fun _ => true;
     xml_file := fun _ => content |}.

(** A root directory without the file [missing]. *)
Definition root_without (missing : string) : FileSystem :=
  {| rcutils_join_path := fun base file => Some (base ++ "/" ++ file)%string;
     rcutils_is_readable := fun file_path => negb (String.eqb file_path missing);
     xml_file := fun _ => None |}.

Definition enforce (root : string) : rmw_node_security_options_t :=
  {| enforce_security := true; security_root_path := Some root |}.

Definition permissive (root : string) : rmw_node_security_options_t :=
  {| enforce_security := false; security_root_path := Some root |}.

(** The descriptor of the test [test_profile_overwrite] with a log file
    added and the depth written before the profile. *)
Definition override_descriptor : option (list XMLNode) :=
  logging_xml
    [ text_element "file" "foo";
      element "qos" [text_element "depth" "42"; text_element "profile" "DEFAULT"] ].

(** The descriptor of the test [test_all]. *)
Definition full_descriptor : option (list XMLNode) :=
  logging_xml
    [ text_element "file" "foo"; text_element "verbosity" "CRITICAL";
      text_element "distribute" "true"; element "qos" [text_element "depth" "10"] ].





(** A logging.xml that is not XML. *)
Definition unreadable_document : option (list XMLNode) := None.

(** The headers of a build of Fast-RTPS without security. *)
Definition rmw_without_security : RmwHeaders :=
  {| HAVE_SECURITY := false;
     RMW_RET_ERROR := 1;
     rmw_qos_profile_sensor_data := {| depth := 5 |};
     rmw_qos_profile_parameters := {| depth := 1000 |};
     rmw_qos_profile_default := {| depth := 10 |};
     rmw_qos_profile_services_default := {| depth := 10 |};
     rmw_qos_profile_parameter_events := {| depth := 1000 |};
     rmw_qos_profile_system_default := {| depth := 0 |} |}.

(** The descriptor of the test [test_profile_invalid]. *)
Definition invalid_profile_descriptor : option (list XMLNode) :=
  logging_xml [element "qos" [text_element "profile" "INVALID_PROFILE"]].

(** The descriptor of the test [test_profile]. *)
Definition profile_descriptor : option (list XMLNode) :=
  logging_xml [element "qos" [text_element "profile" "DEFAULT"]].

(** ** Tactics *)

Ltac unfold_parsers :=
  unfold SecurityLogging.apply_logging_configuration_from_file,
    Security.apply_logging_configuration_from_file,
    SecurityLogging.add_property_from_xml_element,
    Security.add_property_from_xml_element,
    SecurityLogging.add_properties_from_qos_profile,
    Security.add_properties_from_qos_profile,
    bind, ret, RMW_SET_ERROR_MSG, RMW_SET_ERROR_MSG_WITH_FORMAT_STRING in *.

Ltac unfold_fields :=
  unfold descriptor_well_formed, profile_resolves, absent_or_text, present_without_text in *.

(** One case distinction on a child lookup, a text or a profile name that
    the goal or a hypothesis branches on. *)
Ltac branch_on x :=
  let E := fresh "E" in
  destruct x eqn:E; simpl in *; try discriminate.

Ltac split_parsers :=
  repeat match goal with
         | R : ?x = _ |- context [match ?x with _ => _ end] => rewrite R; simpl
         | R : ?x = _, G : context [match ?x with _ => _ end] |- _ =>
             rewrite R in G; simpl in G
         | |- context [match FirstChildElement ?a ?b with _ => _ end] =>
             branch_on (FirstChildElement a b)
         | |- context [match GetText ?a with _ => _ end] => branch_on (GetText a)
         | |- context [match SecurityLogging.string_to_rmw_qos_profile ?a with _ => _ end] =>
             branch_on (SecurityLogging.string_to_rmw_qos_profile a)
         | |- context [match Security.string_to_rmw_qos_profile ?a with _ => _ end] =>
             change (Security.string_to_rmw_qos_profile a)
               with (SecurityLogging.string_to_rmw_qos_profile a)
         | G : context [match Security.string_to_rmw_qos_profile ?a with _ => _ end] |- _ =>
             change (Security.string_to_rmw_qos_profile a)
               with (SecurityLogging.string_to_rmw_qos_profile a) in G
         | G : context [match FirstChildElement ?a ?b with _ => _ end] |- _ =>
             branch_on (FirstChildElement a b)
         | G : context [match GetText ?a with _ => _ end] |- _ => branch_on (GetText a)
         | G : context [match SecurityLogging.string_to_rmw_qos_profile ?a with _ => _ end]
           |- _ => branch_on (SecurityLogging.string_to_rmw_qos_profile a)
         end.

(** Name the result of a pass and keep its defining equation, so that the
    case distinctions run on one copy of the parser. *)
Ltac name_result result Hres :=
  assert (Hres : result = result) by reflexivity;
  unfold result at 2 in Hres; clearbody result.

Ltac unfold_results := unfold returned, updated, reported in *; cbn [fst snd] in *.

(** One case distinction per file lookup of [get_security_file_paths]. *)
Ltac split_file_lookups :=
  repeat match goal with
         | |- context [match Security.get_security_file_path ?fs ?r ?n with _ => _ end] =>
             let E := fresh "E" in
             destruct (Security.get_security_file_path fs r n) eqn:E
         end.

(** ** Upsert and merge *)

Lemma add_property_same : Security.add_property = SecurityLogging.add_property.
Proof. reflexivity. Qed.

Lemma add_property_absent (ps : PropertySeq) (p : Property) :
  ~ In (name p) (names ps) -> SecurityLogging.add_property ps p = ps ++ [p].
Proof.
  induction ps as [|x ps IH]; simpl; intros Hnot.
  - reflexivity.
  - destruct (String.eqb_spec (name x) (name p)) as [E|E].
    + exfalso. apply Hnot. now left.
    + f_equal. apply IH. intros Hin. apply Hnot. now right.
Qed.

Lemma add_property_present (ps : PropertySeq) (p : Property) :
  In (name p) (names ps) ->
  exists before old after,
    ps = before ++ old :: after /\
    name old = name p /\
    ~ In (name p) (names before) /\
    SecurityLogging.add_property ps p = before ++ p :: after.
Proof.
  induction ps as [|x ps IH]; simpl; intros Hin.
  - contradiction.
  - destruct (String.eqb_spec (name x) (name p)) as [E|E].
    + exists [], x, ps. repeat split; auto.
    + destruct Hin as [Hx|Hin]; [contradiction|].
      destruct (IH Hin) as (before & old & after & Hps & Hold & Hnot & Hadd).
      exists (x :: before), old, after. simpl. repeat split.
      * now rewrite Hps.
      * exact Hold.
      * intros [Hx|Hb]; [contradiction | now apply Hnot].
      * now rewrite Hadd.
Qed.

Lemma names_add_property (ps : PropertySeq) (p : Property) :
  names (SecurityLogging.add_property ps p) =
  if existsb (String.eqb (name p)) (names ps) then names ps else names ps ++ [name p].
Proof.
  induction ps as [|x ps IH]; simpl.
  - reflexivity.
  - rewrite (String.eqb_sym (name p) (name x)).
    destruct (String.eqb_spec (name x) (name p)) as [E|E]; simpl.
    + now rewrite E.
    + rewrite IH. now destruct (existsb _ _).
Qed.

Lemma existsb_eqb_In (n : string) (l : list string) :
  existsb (String.eqb n) l = true <-> In n l.
Proof.
  rewrite existsb_exists. split.
  - intros (x & Hx & E). apply String.eqb_eq in E. now subst.
  - intros Hin. exists n. split; [exact Hin | apply String.eqb_refl].
Qed.

Lemma NoDup_add_property (ps : PropertySeq) (p : Property) :
  NoDup (names ps) -> NoDup (names (SecurityLogging.add_property ps p)).
Proof.
  intros Hnd. rewrite names_add_property.
  destruct (existsb (String.eqb (name p)) (names ps)) eqn:E.
  - exact Hnd.
  - apply NoDup_app; [exact Hnd | repeat constructor; intros [] | ].
    intros a Ha [<-|[]].
    apply existsb_eqb_In in Ha. congruence.
Qed.

Lemma NoDup_merge (other ps : PropertySeq) :
  NoDup (names ps) -> NoDup (names (fold_left SecurityLogging.add_property other ps)).
Proof.
  revert ps. induction other as [|x other IH]; simpl; intros ps Hnd.
  - exact Hnd.
  - apply IH. now apply NoDup_add_property.
Qed.

Lemma lookup_add_property_same (ps : PropertySeq) (p : Property) :
  lookup_property (SecurityLogging.add_property ps p) (name p) = Some p.
Proof.
  induction ps as [|x ps IH]; simpl.
  - now rewrite String.eqb_refl.
  - destruct (String.eqb (name x) (name p)) eqn:E; simpl.
    + now rewrite String.eqb_refl.
    + now rewrite E.
Qed.

Lemma lookup_add_property_other (ps : PropertySeq) (p : Property) (n : string) :
  name p <> n ->
  lookup_property (SecurityLogging.add_property ps p) n = lookup_property ps n.
Proof.
  intros Hn. induction ps as [|x ps IH]; simpl.
  - now apply String.eqb_neq in Hn as ->.
  - destruct (String.eqb_spec (name x) (name p)) as [E|E]; simpl.
    + rewrite E. now apply String.eqb_neq in Hn as ->.
    + now rewrite IH.
Qed.

Lemma lookup_property_absent (ps : PropertySeq) (n : string) :
  ~ In n (names ps) -> lookup_property ps n = None.
Proof.
  induction ps as [|x ps IH]; simpl; intros Hnot.
  - reflexivity.
  - destruct (String.eqb_spec (name x) n) as [E|E].
    + exfalso. apply Hnot. now left.
    + apply IH. intros Hin. apply Hnot. now right.
Qed.

(** Merging a sequence with unique names: an entry of the merged sequence
    decides the lookup of its name, the target decides the others. *)
Lemma lookup_merge (other ps : PropertySeq) (n : string) :
  NoDup (names other) ->
  lookup_property (fold_left SecurityLogging.add_property other ps) n =
  match lookup_property other n with
  | Some p => Some p
  | None => lookup_property ps n
  end.
Proof.
  revert ps. induction other as [|x other IH]; simpl; intros ps Hnd.
  - reflexivity.
  - inversion Hnd as [|? ? Hx Hnd']; subst.
    rewrite (IH _ Hnd').
    destruct (String.eqb_spec (name x) n) as [E|E].
    + subst n. rewrite (lookup_property_absent other _ Hx).
      apply lookup_add_property_same.
    + now rewrite lookup_add_property_other.
Qed.

(** ** The logging parsers *)

Section Parsers.
Context `{headers : RmwHeaders}.

Lemma string_to_rmw_qos_profile_same (str : string) :
  Security.string_to_rmw_qos_profile str = SecurityLogging.string_to_rmw_qos_profile str.
Proof. reflexivity. Qed.

Lemma string_to_rmw_qos_profile_catalog (str : string) :
  existsb (String.eqb str) catalog_names = true <->
  SecurityLogging.string_to_rmw_qos_profile str <> None.
Proof.
  unfold SecurityLogging.string_to_rmw_qos_profile, SecurityLogging.supported_profiles,
    catalog_names.
  cbn [SecurityLogging.profile_named existsb fst snd].
  rewrite !(String.eqb_sym str).
  repeat match goal with
         | |- context [String.eqb ?a str] => destruct (String.eqb a str)
         end; cbn [orb]; split; intros Hx; congruence.
Qed.

Lemma depth_overrides_in_sequence
  (fs : FileSystem) (xml_file_path : string) (e : rmw_error_state)
  (log_element qos_element profile_element depth_element : XMLNode)
  (profile_str T : string) (profile : rmw_qos_profile_t) (target : PropertySeq) :
  FirstChildElement (LoadFile fs xml_file_path) "security_log" = Some log_element ->
  FirstChildElement log_element "qos" = Some qos_element ->
  FirstChildElement qos_element "profile" = Some profile_element ->
  GetText profile_element = Some profile_str ->
  SecurityLogging.string_to_rmw_qos_profile profile_str = Some profile ->
  FirstChildElement qos_element "depth" = Some depth_element ->
  GetText depth_element = Some T ->
  let result :=
    SecurityLogging.apply_logging_configuration_from_file fs xml_file_path target e in
  (returned result = true <->
   absent_or_text log_element "file" && absent_or_text log_element "verbosity" &&
   absent_or_text log_element "distribute" = true) /\
  (returned result = true ->
   lookup_property (updated result) SecurityLogging.distribute_depth_property_name =
   Some (mkProperty SecurityLogging.distribute_depth_property_name T)).
Proof.
  intros Hroot Hqos Hprofile Hname Hresolved Hdepth HT result. subst result.
  unfold_parsers. unfold_fields. rewrite Hroot.
  split_parsers.
  all: unfold_results.
  all: split; [split; intros; try reflexivity; try discriminate|].
  all: intros Hok; try discriminate Hok.
  all: apply lookup_add_property_same.
Qed.

Lemma depth_overrides_in_policy
  (fs : FileSystem) (xml_file_path : string) (e : rmw_error_state)
  (log_element qos_element profile_element depth_element : XMLNode)
  (profile_str T : string) (profile : rmw_qos_profile_t) (policy : PropertyPolicy) :
  HAVE_SECURITY = true ->
  FirstChildElement (LoadFile fs xml_file_path) "security_log" = Some log_element ->
  FirstChildElement log_element "qos" = Some qos_element ->
  FirstChildElement qos_element "profile" = Some profile_element ->
  GetText profile_element = Some profile_str ->
  Security.string_to_rmw_qos_profile profile_str = Some profile ->
  FirstChildElement qos_element "depth" = Some depth_element ->
  GetText depth_element = Some T ->
  let result :=
    Security.apply_logging_configuration_from_file fs xml_file_path policy e in
  (returned result = true <->
   absent_or_text log_element "file" && absent_or_text log_element "verbosity" &&
   absent_or_text log_element "distribute" = true) /\
  (returned result = true ->
   lookup_property (properties (updated result)) Security.distribute_depth_property_name =
   Some (mkProperty Security.distribute_depth_property_name T)).
Proof.
  intros Hsec Hroot Hqos Hprofile Hname Hresolved Hdepth HT result. subst result.
  rewrite string_to_rmw_qos_profile_same in Hresolved.
  unfold_parsers. unfold_fields. rewrite Hsec, Hroot.
  split_parsers.
  all: unfold_results.
  all: split; [split; intros; try reflexivity; try discriminate|].
  all: intros Hok; try discriminate Hok.
  all: cbn [properties]; rewrite add_property_same; apply lookup_add_property_same.
Qed.

(** C3 (the code). A file that cannot be read or parsed leaves a document
    without a root element. When the document has no root element named
    security_log, both parsers set the message about the missing root and
    return [RMW_RET_ERROR] converted to [bool], leaving the caller's
    collection as it was; that value is [true] for every non-zero
    [RMW_RET_ERROR]. *)
Theorem missing_root_returns_RMW_RET_ERROR
  (fs : FileSystem) (xml_file_path : string) (e : rmw_error_state) :
  (xml_file fs xml_file_path = None ->
   FirstChildElement (LoadFile fs xml_file_path) "security_log" = None) /\
  (FirstChildElement (LoadFile fs xml_file_path) "security_log" = None ->
   (forall target : PropertySeq,
      SecurityLogging.apply_logging_configuration_from_file fs xml_file_path target e =
      (bool_of_int RMW_RET_ERROR, target, Some "logger xml file missing 'security_log'")) /\
   (HAVE_SECURITY = true ->
    forall policy : PropertyPolicy,
      Security.apply_logging_configuration_from_file fs xml_file_path policy e =
      (bool_of_int RMW_RET_ERROR, policy,
       Some "logger xml file missing 'security_log'"))) /\
  (RMW_RET_ERROR <> 0%Z -> bool_of_int RMW_RET_ERROR = true).
Proof.
  split; [|split].
  - intros Hfile. unfold LoadFile. now rewrite Hfile.
  - intros Hroot. split.
    + intros target. unfold_parsers. now rewrite Hroot.
    + intros Hsec policy. unfold_parsers. now rewrite Hsec, Hroot.
  - intros Hnz. unfold bool_of_int. now apply Z.eqb_neq in Hnz as ->.
Qed.

(** C8. [string_to_rmw_qos_profile] finds a profile exactly for the six
    names of the catalog, compared character by character, and it is the
    profile listed under that name; for a profile, starting from no
    property, [add_properties_from_qos_profile] yields the single property
    com.rti.serv.secure.logging.distribute.writer_history_depth whose
    value is the decimal writing of the profile's depth, and in general it
    upserts that property. *)
Theorem profile_resolution_and_derivation :
  (forall str : string,
     In str catalog_names <->
     exists profile, SecurityLogging.string_to_rmw_qos_profile str = Some profile) /\
  (forall str : string,
     ~ In str catalog_names <-> SecurityLogging.string_to_rmw_qos_profile str = None) /\
  SecurityLogging.string_to_rmw_qos_profile "SENSOR_DATA" = Some rmw_qos_profile_sensor_data /\
  SecurityLogging.string_to_rmw_qos_profile "PARAMETERS" = Some rmw_qos_profile_parameters /\
  SecurityLogging.string_to_rmw_qos_profile "DEFAULT" = Some rmw_qos_profile_default /\
  SecurityLogging.string_to_rmw_qos_profile "SERVICES_DEFAULT" =
    Some rmw_qos_profile_services_default /\
  SecurityLogging.string_to_rmw_qos_profile "PARAMETER_EVENTS" =
    Some rmw_qos_profile_parameter_events /\
  SecurityLogging.string_to_rmw_qos_profile "SYSTEM_DEFAULT" =
    Some rmw_qos_profile_system_default /\
  SecurityLogging.string_to_rmw_qos_profile "default" = None /\
  SecurityLogging.string_to_rmw_qos_profile "Sensor_Data" = None /\
  SecurityLogging.string_to_rmw_qos_profile "DEFAULT " = None /\
  (forall profile : rmw_qos_profile_t,
     SecurityLogging.add_properties_from_qos_profile [] profile =
     [ mkProperty "com.rti.serv.secure.logging.distribute.writer_history_depth"
         (to_string (depth profile)) ]) /\
  (forall (ps : PropertySeq) (profile : rmw_qos_profile_t),
     SecurityLogging.add_properties_from_qos_profile ps profile =
     SecurityLogging.add_property ps
       (mkProperty "com.rti.serv.secure.logging.distribute.writer_history_depth"
          (to_string (depth profile)))) /\
  (forall n : N, NilEmpty.uint_of_string (to_string n) = Some (N.to_uint n)).
Proof.
  assert (Hcat : forall str,
    In str catalog_names <-> SecurityLogging.string_to_rmw_qos_profile str <> None).
  { intros str. rewrite <- string_to_rmw_qos_profile_catalog. symmetry.
    apply existsb_eqb_In. }
  split; [|split].
  - intros str. rewrite Hcat.
    destruct (SecurityLogging.string_to_rmw_qos_profile str) as [profile|]; split.
    + intros _. now exists profile.
    + intros _. discriminate.
    + intros Hx. now contradiction Hx.
    + intros [profile Hx]. discriminate.
  - intros str. rewrite Hcat.
    destruct (SecurityLogging.string_to_rmw_qos_profile str) as [profile|]; split.
    + intros Hx. exfalso. apply Hx. discriminate.
    + discriminate.
    + reflexivity.
    + intros _ Hx. now apply Hx.
  - repeat split; try reflexivity.
    intros n. unfold to_string. apply NilEmpty.usu.
Qed.






(** A pass keeps the names of the caller's collection unique. *)
Lemma parse_keeps_sequence_unique
  (fs : FileSystem) (xml_file_path : string) (target : PropertySeq) (e : rmw_error_state) :
  NoDup (names target) ->
  NoDup (names (updated
    (SecurityLogging.apply_logging_configuration_from_file fs xml_file_path target e))).
Proof.
  intros Hnd. unfold_parsers.
  split_parsers.
  all: unfold_results; repeat apply NoDup_add_property; exact Hnd.
Qed.

Lemma parse_keeps_policy_unique
  (fs : FileSystem) (xml_file_path : string) (policy : PropertyPolicy) (e : rmw_error_state) :
  NoDup (names (properties policy)) ->
  NoDup (names (properties (updated
    (Security.apply_logging_configuration_from_file fs xml_file_path policy e)))).
Proof.
  intros Hnd. unfold_parsers.
  destruct HAVE_SECURITY; [|exact Hnd].
  split_parsers.
  all: unfold_results; cbn [properties]; rewrite ?add_property_same;
    repeat apply NoDup_add_property; exact Hnd.
Qed.

(** C1. When the qos block of a logging descriptor holds a profile child
    whose text names a catalog profile and a depth child with text [T],
    both parsers succeed exactly when the file, verbosity and distribute
    children do not stop them earlier, and whenever they succeed the first
    entry named com.rti.serv.secure.logging.distribute.writer_history_depth
    of the caller's collection is the one with value [T]; it is the only
    entry of that name when the caller's names were unique. The children of
    the qos block are arbitrary lists, so the order of profile and depth
    plays no part. *)
Theorem explicit_depth_overrides_profile
  (fs : FileSystem) (xml_file_path : string) (e : rmw_error_state)
  (log_element qos_element profile_element depth_element : XMLNode)
  (profile_str T : string) (profile : rmw_qos_profile_t) :
  FirstChildElement (LoadFile fs xml_file_path) "security_log" = Some log_element ->
  FirstChildElement log_element "qos" = Some qos_element ->
  FirstChildElement qos_element "profile" = Some profile_element ->
  GetText profile_element = Some profile_str ->
  SecurityLogging.string_to_rmw_qos_profile profile_str = Some profile ->
  FirstChildElement qos_element "depth" = Some depth_element ->
  GetText depth_element = Some T ->
  (forall target : PropertySeq,
     let result :=
       SecurityLogging.apply_logging_configuration_from_file fs xml_file_path target e in
     (returned result = true <->
      absent_or_text log_element "file" && absent_or_text log_element "verbosity" &&
      absent_or_text log_element "distribute" = true) /\
     (returned result = true ->
      lookup_property (updated result)
        "com.rti.serv.secure.logging.distribute.writer_history_depth" =
      Some (mkProperty "com.rti.serv.secure.logging.distribute.writer_history_depth" T)) /\
     (NoDup (names target) -> NoDup (names (updated result)))) /\
  (HAVE_SECURITY = true ->
   forall policy : PropertyPolicy,
     let result :=
       Security.apply_logging_configuration_from_file fs xml_file_path policy e in
     (returned result = true <->
      absent_or_text log_element "file" && absent_or_text log_element "verbosity" &&
      absent_or_text log_element "distribute" = true) /\
     (returned result = true ->
      lookup_property (properties (updated result))
        "com.rti.serv.secure.logging.distribute.writer_history_depth" =
      Some (mkProperty "com.rti.serv.secure.logging.distribute.writer_history_depth" T)) /\
     (NoDup (names (properties policy)) -> NoDup (names (properties (updated result))))).
Proof.
  intros Hroot Hqos Hprofile Hname Hresolved Hdepth HT. split.
  - intros target result.
    destruct (depth_overrides_in_sequence fs xml_file_path e log_element
                qos_element profile_element depth_element profile_str T profile target
                Hroot Hqos Hprofile Hname Hresolved Hdepth HT) as [Hok Hvalue].
    split; [exact Hok|]. split; [exact Hvalue|].
    apply parse_keeps_sequence_unique.
  - intros Hsec policy result.
    destruct (depth_overrides_in_policy fs xml_file_path e log_element
                qos_element profile_element depth_element profile_str T profile policy
                Hsec Hroot Hqos Hprofile Hname Hresolved Hdepth HT) as [Hok Hvalue].
    split; [exact Hok|]. split; [exact Hvalue|].
    apply parse_keeps_policy_unique.
Qed.

(** C10. With security compiled in, both parsers run on the same document
    from an empty collection return the same value, leave the same message
    and yield sequences of the same length whose entries agree one by one
    in value and in name, except that the entry the security module names
    dds.sec.log.builtin.DDS_LogTopic.logging_level is named
    dds.sec.log.builtin.DDS_LogTopic.event_log_level by the
    security-logging module. *)
Theorem parsers_differ_in_verbosity_name
  (fs : FileSystem) (xml_file_path : string) (e : rmw_error_state) :
  HAVE_SECURITY = true ->
  let in_policy :=
    Security.apply_logging_configuration_from_file fs xml_file_path
      {| properties := [] |} e in
  let in_sequence :=
    SecurityLogging.apply_logging_configuration_from_file fs xml_file_path [] e in
  returned in_policy = returned in_sequence /\
  reported in_policy = reported in_sequence /\
  Forall2 same_entry (properties (updated in_policy)) (updated in_sequence) /\
  map rename_verbosity (properties (updated in_policy)) = updated in_sequence /\
  Security.verbosity_property_name = "dds.sec.log.builtin.DDS_LogTopic.logging_level" /\
  SecurityLogging.verbosity_property_name =
    "dds.sec.log.builtin.DDS_LogTopic.event_log_level" /\
  Security.logging_plugin_property_name = SecurityLogging.logging_plugin_property_name /\
  Security.log_file_property_name = SecurityLogging.log_file_property_name /\
  Security.distribute_enable_property_name =
    SecurityLogging.distribute_enable_property_name /\
  Security.distribute_depth_property_name =
    SecurityLogging.distribute_depth_property_name.
Proof.
  intros Hsec in_policy in_sequence.
  name_result in_policy Hpolicy. name_result in_sequence Hsequence.
  unfold_parsers. rewrite Hsec in Hpolicy.
  split_parsers.
  all: subst in_policy in_sequence; unfold_results; cbn [properties].
  all: repeat split; try reflexivity.
  all: repeat first [apply Forall2_nil | apply Forall2_cons].
  all: split; [reflexivity | first [left; reflexivity | right; split; reflexivity]].
Qed.

End Parsers.

(** ** The security files and the policy *)

Section Build.
Context `{headers : RmwHeaders}.

(** [apply_security_options] by cases: the nine [emplace_back] calls
    append [core_properties], and the value returned after the logging pass
    is the value the pass returned. *)
Lemma apply_security_options_cases
  (fs : FileSystem) (security_options : rmw_node_security_options_t)
  (policy : PropertyPolicy) (e : rmw_error_state) :
  Security.apply_security_options fs security_options policy e =
  match security_root_path security_options with
  | None => (true, policy, e)
  | Some root_path =>
      if HAVE_SECURITY then
        let found_files :=
          Security.get_security_file_paths fs root_path Security.security_files_default in
        if fst found_files then
          let core :=
            {| properties := properties policy ++ core_properties (snd found_files) |} in
          if String.eqb (Security.logging_path (snd found_files)) "" then (true, core, e)
          else Security.apply_logging_configuration_from_file fs
                 (Security.logging_path (snd found_files)) core e
        else if enforce_security security_options
             then (false, policy, Some "couldn't find all security files!")
             else (true, policy, e)
      else (false, policy, Some security_unavailable_message)
  end.
Proof.
  unfold Security.apply_security_options.
  destruct (security_root_path security_options) as [root_path|]; [|reflexivity].
  destruct HAVE_SECURITY; [|reflexivity].
  destruct (Security.get_security_file_paths fs root_path Security.security_files_default)
    as [found security_files].
  cbn [fst snd]. destruct found.
  - unfold emplace_back, Security.path_to_uri, core_properties. cbn [properties].
    rewrite <- !app_assoc. cbn [app].
    destruct (String.eqb (Security.logging_path security_files) ""); cbn [negb].
    + reflexivity.
    + unfold bind, ret.
      destruct (Security.apply_logging_configuration_from_file fs _ _ e)
        as [[applied policy'] e'].
      now destruct applied.
  - now destruct (enforce_security security_options).
Qed.

(** C4. Without a security root path [apply_security_options] returns
    true and leaves policy and error slot alone. With security compiled
    in and a root below which [get_security_file_paths] fails, it returns
    false exactly when [enforce_security] is set, and in both cases the
    policy is left as it was: with enforcement the message about the
    missing files is set, without it the call returns true and reports
    nothing. *)
Theorem enforcement_gates_missing_files
  (fs : FileSystem) (security_options : rmw_node_security_options_t)
  (policy : PropertyPolicy) (e : rmw_error_state) :
  let result := Security.apply_security_options fs security_options policy e in
  (security_root_path security_options = None -> result = (true, policy, e)) /\
  (HAVE_SECURITY = true ->
   forall root_path : string,
     security_root_path security_options = Some root_path ->
     fst (Security.get_security_file_paths fs root_path Security.security_files_default)
       = false ->
     (returned result = false <-> enforce_security security_options = true) /\
     updated result = policy /\
     (enforce_security security_options = false -> result = (true, policy, e)) /\
     (enforce_security security_options = true ->
      result = (false, policy, Some "couldn't find all security files!"))).
Proof.
  intros result. subst result. rewrite apply_security_options_cases. split.
  - now intros ->.
  - intros Hsec root_path Hroot Hfail. rewrite Hroot, Hsec. cbn zeta. rewrite Hfail.
    destruct (enforce_security security_options); unfold_results.
    + repeat split; auto; discriminate.
    + repeat split; auto; discriminate.
Qed.

(** C6, as amended. [get_security_file_paths] returns false exactly when
    one of the six mandatory names, joined to the root, gives no readable
    path, whatever the other files are. The structure is the caller's: after
    a failure it holds the paths found before the first failing lookup, and
    every member from that lookup on is as the caller passed it;
    [apply_security_options] hands nothing of it on to the policy then.
    When the function returns true the six paths are the joined, readable
    paths, and the logging path is the joined path of logging.xml when that
    is readable and is left as it was (empty for a fresh structure) when it
    is not. *)
Theorem mandatory_files_decide_resolution
  (fs : FileSystem) (node_secure_root : string) (security_files : Security.security_files_t) :
  let result := Security.get_security_file_paths fs node_secure_root security_files in
  (fst result = false <->
   exists file_name : string,
     In file_name mandatory_file_names /\
     Security.get_security_file_path fs node_secure_root file_name = None) /\
  (fst result = true ->
   Security.get_security_file_path fs node_secure_root "identity_ca.cert.pem" =
     Some (Security.identity_ca_cert_path (snd result)) /\
   Security.get_security_file_path fs node_secure_root "permissions_ca.cert.pem" =
     Some (Security.permissions_ca_cert_path (snd result)) /\
   Security.get_security_file_path fs node_secure_root "governance.p7s" =
     Some (Security.governance_path (snd result)) /\
   Security.get_security_file_path fs node_secure_root "cert.pem" =
     Some (Security.cert_path (snd result)) /\
   Security.get_security_file_path fs node_secure_root "key.pem" =
     Some (Security.key_path (snd result)) /\
   Security.get_security_file_path fs node_secure_root "permissions.p7s" =
     Some (Security.permissions_path (snd result)) /\
   Security.logging_path (snd result) =
     match Security.get_security_file_path fs node_secure_root "logging.xml" with
     | Some file_path => file_path
     | None => Security.logging_path security_files
     end) /\
  (forall file_name : string,
     Security.get_security_file_path fs node_secure_root file_name = None <->
     (rcutils_join_path fs node_secure_root file_name = None \/
      exists file_path : string,
        rcutils_join_path fs node_secure_root file_name = Some file_path /\
        rcutils_is_readable fs file_path = false)) /\
  (HAVE_SECURITY = true ->
   fst (Security.get_security_file_paths fs node_secure_root Security.security_files_default)
     = false ->
   forall (enforced : bool) (policy : PropertyPolicy) (e : rmw_error_state),
     updated (Security.apply_security_options fs
                {| enforce_security := enforced;
                   security_root_path := Some node_secure_root |} policy e) = policy) /\
  (Security.get_security_file_path fs node_secure_root "identity_ca.cert.pem" = None ->
   result = (false, security_files)) /\
  (forall identity_ca : string,
     Security.get_security_file_path fs node_secure_root "identity_ca.cert.pem" = Some identity_ca ->
     Security.get_security_file_path fs node_secure_root "permissions_ca.cert.pem" = None ->
     result =
       (false,
        {| Security.identity_ca_cert_path := identity_ca;
           Security.permissions_ca_cert_path := Security.permissions_ca_cert_path security_files;
           Security.governance_path := Security.governance_path security_files;
           Security.cert_path := Security.cert_path security_files;
           Security.key_path := Security.key_path security_files;
           Security.permissions_path := Security.permissions_path security_files;
           Security.logging_path := Security.logging_path security_files |})) /\
  (forall identity_ca permissions_ca : string,
     Security.get_security_file_path fs node_secure_root "identity_ca.cert.pem" = Some identity_ca ->
     Security.get_security_file_path fs node_secure_root "permissions_ca.cert.pem" = Some permissions_ca ->
     Security.get_security_file_path fs node_secure_root "governance.p7s" = None ->
     result =
       (false,
        {| Security.identity_ca_cert_path := identity_ca;
           Security.permissions_ca_cert_path := permissions_ca;
           Security.governance_path := Security.governance_path security_files;
           Security.cert_path := Security.cert_path security_files;
           Security.key_path := Security.key_path security_files;
           Security.permissions_path := Security.permissions_path security_files;
           Security.logging_path := Security.logging_path security_files |})) /\
  (forall identity_ca permissions_ca governance : string,
     Security.get_security_file_path fs node_secure_root "identity_ca.cert.pem" = Some identity_ca ->
     Security.get_security_file_path fs node_secure_root "permissions_ca.cert.pem" = Some permissions_ca ->
     Security.get_security_file_path fs node_secure_root "governance.p7s" = Some governance ->
     Security.get_security_file_path fs node_secure_root "cert.pem" = None ->
     result =
       (false,
        {| Security.identity_ca_cert_path := identity_ca;
           Security.permissions_ca_cert_path := permissions_ca;
           Security.governance_path := governance;
           Security.cert_path := Security.cert_path security_files;
           Security.key_path := Security.key_path security_files;
           Security.permissions_path := Security.permissions_path security_files;
           Security.logging_path := Security.logging_path security_files |})) /\
  (forall identity_ca permissions_ca governance cert : string,
     Security.get_security_file_path fs node_secure_root "identity_ca.cert.pem" = Some identity_ca ->
     Security.get_security_file_path fs node_secure_root "permissions_ca.cert.pem" = Some permissions_ca ->
     Security.get_security_file_path fs node_secure_root "governance.p7s" = Some governance ->
     Security.get_security_file_path fs node_secure_root "cert.pem" = Some cert ->
     Security.get_security_file_path fs node_secure_root "key.pem" = None ->
     result =
       (false,
        {| Security.identity_ca_cert_path := identity_ca;
           Security.permissions_ca_cert_path := permissions_ca;
           Security.governance_path := governance;
           Security.cert_path := cert;
           Security.key_path := Security.key_path security_files;
           Security.permissions_path := Security.permissions_path security_files;
           Security.logging_path := Security.logging_path security_files |})) /\
  (forall identity_ca permissions_ca governance cert key : string,
     Security.get_security_file_path fs node_secure_root "identity_ca.cert.pem" = Some identity_ca ->
     Security.get_security_file_path fs node_secure_root "permissions_ca.cert.pem" = Some permissions_ca ->
     Security.get_security_file_path fs node_secure_root "governance.p7s" = Some governance ->
     Security.get_security_file_path fs node_secure_root "cert.pem" = Some cert ->
     Security.get_security_file_path fs node_secure_root "key.pem" = Some key ->
     Security.get_security_file_path fs node_secure_root "permissions.p7s" = None ->
     result =
       (false,
        {| Security.identity_ca_cert_path := identity_ca;
           Security.permissions_ca_cert_path := permissions_ca;
           Security.governance_path := governance;
           Security.cert_path := cert;
           Security.key_path := key;
           Security.permissions_path := Security.permissions_path security_files;
           Security.logging_path := Security.logging_path security_files |})).
Proof.
  intros result. subst result.
  split; [|split; [|split; [split|split]]].
  1, 2: unfold Security.get_security_file_paths, mandatory_file_names,
    Security.identity_ca_cert_file_name, Security.permissions_ca_cert_file_name,
    Security.governance_file_name, Security.cert_file_name, Security.key_file_name,
    Security.permissions_file_name, Security.logging_file_name.
  - split_file_lookups; cbn [fst]; split.
    all: try (intros Hfalse; discriminate Hfalse).
    all: try (intros _; eexists; split; [|eassumption]; cbn; now auto 7).
    all: intros (file_name & Hin & Hnone); try reflexivity.
    all: exfalso; cbn [In] in Hin; intuition (subst; congruence).
  - split_file_lookups; cbn [fst snd]; intros Hx; try discriminate Hx.
    all: repeat split; reflexivity.
  - unfold Security.get_security_file_path.
    destruct (rcutils_join_path fs node_secure_root file_name) as [file_path|].
    + destruct (rcutils_is_readable fs file_path) eqn:Er; [discriminate|].
      intros _. right. now exists file_path.
    + intros _. now left.
  - unfold Security.get_security_file_path.
    intros [->|(file_path & -> & ->)]; reflexivity.
  - intros Hsec Hfail enforced policy e.
    rewrite apply_security_options_cases. cbn [security_root_path enforce_security].
    rewrite Hsec. cbn zeta. rewrite Hfail. now destruct enforced.
  - unfold Security.get_security_file_paths,
      Security.identity_ca_cert_file_name, Security.permissions_ca_cert_file_name,
      Security.governance_file_name, Security.cert_file_name, Security.key_file_name,
      Security.permissions_file_name, Security.logging_file_name.
    repeat split; intros;
      repeat match goal with
             | Hx : Security.get_security_file_path _ _ _ = _ |- _ => rewrite Hx; clear Hx
             end; reflexivity.
Qed.

(** C5. With security compiled in and all mandatory files resolved,
    [apply_security_options] appends to the policy the nine properties of
    [core_properties] (authentication plugin, identity CA, node
    certificate, node private key, crypto plugin, access-control plugin,
    permissions CA, governance, permissions), each path written as file://
    followed by the path that was resolved; nothing else is added when no
    logging file was found, and otherwise the logging pass runs on that
    policy and decides the returned value. *)
Theorem core_properties_of_resolved_files
  (fs : FileSystem) (security_options : rmw_node_security_options_t)
  (policy : PropertyPolicy) (e : rmw_error_state)
  (root_path : string) (security_files : Security.security_files_t) :
  HAVE_SECURITY = true ->
  security_root_path security_options = Some root_path ->
  Security.get_security_file_paths fs root_path Security.security_files_default =
    (true, security_files) ->
  let core := {| properties := properties policy ++ core_properties security_files |} in
  let result := Security.apply_security_options fs security_options policy e in
  (Security.logging_path security_files = "" -> result = (true, core, e)) /\
  (Security.logging_path security_files <> "" ->
   result = Security.apply_logging_configuration_from_file fs
              (Security.logging_path security_files) core e) /\
  core_properties security_files =
    [ mkProperty "dds.sec.auth.plugin" "builtin.PKI-DH";
      mkProperty "dds.sec.auth.builtin.PKI-DH.identity_ca"
        (Security.path_to_uri (Security.identity_ca_cert_path security_files));
      mkProperty "dds.sec.auth.builtin.PKI-DH.identity_certificate"
        (Security.path_to_uri (Security.cert_path security_files));
      mkProperty "dds.sec.auth.builtin.PKI-DH.private_key"
        (Security.path_to_uri (Security.key_path security_files));
      mkProperty "dds.sec.crypto.plugin" "builtin.AES-GCM-GMAC";
      mkProperty "dds.sec.access.plugin" "builtin.Access-Permissions";
      mkProperty "dds.sec.access.builtin.Access-Permissions.permissions_ca"
        (Security.path_to_uri (Security.permissions_ca_cert_path security_files));
      mkProperty "dds.sec.access.builtin.Access-Permissions.governance"
        (Security.path_to_uri (Security.governance_path security_files));
      mkProperty "dds.sec.access.builtin.Access-Permissions.permissions"
        (Security.path_to_uri (Security.permissions_path security_files)) ] /\
  length (core_properties security_files) = 9 /\
  (forall file_path : string,
     Security.path_to_uri file_path = ("file://" ++ file_path)%string) /\
  Security.get_security_file_path fs root_path "identity_ca.cert.pem" =
    Some (Security.identity_ca_cert_path security_files) /\
  Security.get_security_file_path fs root_path "cert.pem" =
    Some (Security.cert_path security_files) /\
  Security.get_security_file_path fs root_path "key.pem" =
    Some (Security.key_path security_files) /\
  Security.get_security_file_path fs root_path "permissions_ca.cert.pem" =
    Some (Security.permissions_ca_cert_path security_files) /\
  Security.get_security_file_path fs root_path "governance.p7s" =
    Some (Security.governance_path security_files) /\
  Security.get_security_file_path fs root_path "permissions.p7s" =
    Some (Security.permissions_path security_files).
Proof.
  intros Hsec Hroot Hfound core result. subst core result.
  rewrite apply_security_options_cases, Hroot, Hsec. cbn zeta. rewrite Hfound.
  cbn [fst snd].
  split; [|split].
  - now intros ->.
  - intros Hlog. now apply String.eqb_neq in Hlog as ->.
  - repeat split.
    all: revert Hfound.
    all: unfold Security.get_security_file_paths,
      Security.identity_ca_cert_file_name, Security.permissions_ca_cert_file_name,
      Security.governance_file_name, Security.cert_file_name, Security.key_file_name,
      Security.permissions_file_name, Security.logging_file_name.
    all: split_file_lookups; intros Hx; try discriminate Hx.
    all: injection Hx as <-; reflexivity.
Qed.


Lemma NoDup_core_names : NoDup core_names.
Proof.
  unfold core_names.
  repeat (constructor; [cbn [In]; intuition discriminate|]).
  constructor.
Qed.

Lemma perform_keeps_names_unique (ps : PropertySeq) (op : operation) :
  NoDup (names ps) -> NoDup (names (perform ps op)).
Proof.
  intros Hnd. destruct op as [property|other|fs xml_file_path e|fs xml_file_path e];
    cbn [perform].
  - now apply NoDup_add_property.
  - now apply NoDup_merge.
  - now apply parse_keeps_sequence_unique.
  - now apply parse_keeps_policy_unique.
Qed.

(** C7, as amended. An upsert of a name that is present replaces the first
    entry of that name where it stands; an upsert of a new name appends at
    the end; both modules' [add_property] are the same function. Every
    sequence of upserts, merges and logging passes keeps the names of a
    collection unique. [apply_security_options] appends its nine core
    properties without a lookup: it keeps the names unique when the
    caller's policy holds none of the nine core names. *)
Theorem upsert_keeps_names_unique :
  (forall (ps : PropertySeq) (p : Property),
     In (name p) (names ps) ->
     exists before old after,
       ps = before ++ old :: after /\
       name old = name p /\
       ~ In (name p) (names before) /\
       SecurityLogging.add_property ps p = before ++ p :: after) /\
  (forall (ps : PropertySeq) (p : Property),
     ~ In (name p) (names ps) -> SecurityLogging.add_property ps p = ps ++ [p]) /\
  Security.add_property = SecurityLogging.add_property /\
  (forall (ops : list operation) (ps : PropertySeq),
     NoDup (names ps) -> NoDup (names (fold_left perform ops ps))) /\
  (forall (fs : FileSystem) (security_options : rmw_node_security_options_t)
          (policy : PropertyPolicy) (e : rmw_error_state),
     NoDup (names (properties policy)) ->
     (forall n : string, In n core_names -> ~ In n (names (properties policy))) ->
     NoDup (names (properties (updated
       (Security.apply_security_options fs security_options policy e))))).
Proof.
  split; [exact add_property_present|].
  split; [exact add_property_absent|].
  split; [exact add_property_same|].
  split.
  - intros ops. induction ops as [|op ops IH]; cbn [fold_left]; intros ps Hnd.
    + exact Hnd.
    + apply IH. now apply perform_keeps_names_unique.
  - intros fs security_options policy e Hnd Hfresh.
    rewrite apply_security_options_cases.
    assert (Hcore : forall security_files,
      NoDup (names (properties policy ++ core_properties security_files))).
    { intros security_files. unfold names. rewrite map_app.
      apply NoDup_app; [exact Hnd | exact NoDup_core_names |].
      intros n Hn Hc. now apply (Hfresh n Hc). }
    destruct (security_root_path security_options) as [root_path|]; [|exact Hnd].
    destruct HAVE_SECURITY; [|exact Hnd].
    cbn zeta.
    destruct (Security.get_security_file_paths fs root_path Security.security_files_default)
      as [found security_files].
    cbn [fst snd]. destruct found.
    + destruct (String.eqb (Security.logging_path security_files) "").
      * apply Hcore.
      * apply parse_keeps_policy_unique. apply Hcore.
    + now destruct (enforce_security security_options).
Qed.

End Build.

(** ** Compositions of upsert and merge *)

Lemma add_property_found (ps : PropertySeq) (p : Property) :
  lookup_property ps (name p) = Some p -> SecurityLogging.add_property ps p = ps.
Proof.
  induction ps as [|x ps IH]; simpl.
  - discriminate.
  - destruct (String.eqb (name x) (name p)).
    + now intros [= ->].
    + intros Hfound. now rewrite IH.
Qed.

Lemma merge_found (other ps : PropertySeq) :
  (forall x, In x other -> lookup_property ps (name x) = Some x) ->
  fold_left SecurityLogging.add_property other ps = ps.
Proof.
  induction other as [|x other IH]; simpl; intros Hfound.
  - reflexivity.
  - rewrite add_property_found by (apply Hfound; now left).
    apply IH. intros y Hy. apply Hfound. now right.
Qed.

Lemma lookup_property_unique (ps : PropertySeq) (x : Property) :
  NoDup (names ps) -> In x ps -> lookup_property ps (name x) = Some x.
Proof.
  induction ps as [|y ps IH]; simpl; intros Hnd Hin.
  - contradiction.
  - inversion Hnd as [|? ? Hy Hnd']; subst.
    destruct Hin as [->|Hin].
    + now rewrite String.eqb_refl.
    + destruct (String.eqb_spec (name y) (name x)) as [E|E].
      * exfalso. apply Hy. rewrite E. now apply in_map.
      * now apply IH.
Qed.

Lemma merge_keeps_prefix (other ps : PropertySeq) :
  exists suffix, names (fold_left SecurityLogging.add_property other ps) = names ps ++ suffix.
Proof.
  revert ps. induction other as [|x other IH]; simpl; intros ps.
  - exists []. now rewrite app_nil_r.
  - destruct (IH (SecurityLogging.add_property ps x)) as [suffix Hs].
    rewrite Hs, names_add_property.
    destruct (existsb _ _).
    + now exists suffix.
    + exists (name x :: suffix). now rewrite <- app_assoc.
Qed.

(** X1. Looking a name up after an upsert gives the upserted property for
    its own name and what was there before for every other name; both
    modules' [add_property] behave so. *)
Theorem upsert_then_lookup (ps : PropertySeq) (p : Property) (n : string) :
  lookup_property (SecurityLogging.add_property ps p) n =
    (if String.eqb (name p) n then Some p else lookup_property ps n) /\
  lookup_property (Security.add_property ps p) n =
    (if String.eqb (name p) n then Some p else lookup_property ps n).
Proof.
  rewrite add_property_same.
  assert (Hlookup : lookup_property (SecurityLogging.add_property ps p) n =
                    (if String.eqb (name p) n then Some p else lookup_property ps n)).
  { destruct (String.eqb_spec (name p) n) as [E|E].
    - subst n. apply lookup_add_property_same.
    - now apply lookup_add_property_other. }
  now split.
Qed.

(** X2. Of two upserts of one name the second decides: the result is the
    upsert of the second property alone, at the place the first one took. *)
Theorem last_upsert_wins (ps : PropertySeq) (p q : Property) :
  name p = name q ->
  SecurityLogging.add_property (SecurityLogging.add_property ps p) q =
  SecurityLogging.add_property ps q.
Proof.
  intros Hname. induction ps as [|x ps IH]; simpl.
  - rewrite Hname, String.eqb_refl. reflexivity.
  - destruct (String.eqb (name x) (name p)) eqn:E; simpl.
    + rewrite <- Hname, E, String.eqb_refl. reflexivity.
    + rewrite <- Hname, E. f_equal. exact IH.
Qed.

(** X3. Merging a sequence with unique names a second time changes
    nothing. *)
Theorem merge_is_idempotent (other ps : PropertySeq) :
  NoDup (names other) ->
  fold_left SecurityLogging.add_property other
    (fold_left SecurityLogging.add_property other ps) =
  fold_left SecurityLogging.add_property other ps.
Proof.
  intros Hnd. apply merge_found. intros x Hx.
  rewrite (lookup_merge other ps (name x) Hnd).
  now rewrite (lookup_property_unique other x Hnd Hx).
Qed.

Lemma lookup_property_app (ps qs : PropertySeq) (n : string) :
  lookup_property (ps ++ qs) n =
  match lookup_property ps n with
  | Some p => Some p
  | None => lookup_property qs n
  end.
Proof.
  induction ps as [|x ps IH]; simpl.
  - reflexivity.
  - now destruct (String.eqb (name x) n).
Qed.

Lemma Forall_add_property (P : Property -> Prop) (ps : PropertySeq) (p : Property) :
  Forall P ps -> P p -> Forall P (SecurityLogging.add_property ps p).
Proof.
  intros Hps Hp. induction Hps as [|x ps Hx Hps IH]; simpl.
  - now constructor.
  - destruct (String.eqb (name x) (name p)); now constructor.
Qed.

(** Renaming commutes with an upsert when the logging module's verbosity
    name is not in use. *)
Lemma rename_add_property (ps : PropertySeq) (p : Property) :
  Forall (fun x => name x <> SecurityLogging.verbosity_property_name) ps ->
  name p <> SecurityLogging.verbosity_property_name ->
  map rename_verbosity (SecurityLogging.add_property ps p) =
  SecurityLogging.add_property (map rename_verbosity ps) (rename_verbosity p).
Proof.
  intros Hps Hp. induction Hps as [|x ps Hx Hps IH]; simpl.
  - reflexivity.
  - assert (Hsame : String.eqb (name (rename_verbosity x)) (name (rename_verbosity p)) =
                    String.eqb (name x) (name p)).
    { unfold rename_verbosity.
      destruct (String.eqb_spec (name x) Security.verbosity_property_name) as [Ex|Ex];
        destruct (String.eqb_spec (name p) Security.verbosity_property_name) as [Ep|Ep];
        cbn [name].
      - rewrite Ex, Ep. now rewrite !String.eqb_refl.
      - symmetry.
        apply String.eqb_neq in Hp as Hp'. rewrite String.eqb_sym in Hp'. rewrite Hp'.
        apply String.eqb_neq. congruence.
      - symmetry.
        apply String.eqb_neq in Hx as ->.
        apply String.eqb_neq. congruence.
      - reflexivity. }
    rewrite Hsame.
    destruct (String.eqb (name x) (name p)); simpl.
    + reflexivity.
    + now rewrite IH.
Qed.

Lemma rename_merge (other ps : PropertySeq) :
  Forall (fun x => name x <> SecurityLogging.verbosity_property_name) other ->
  Forall (fun x => name x <> SecurityLogging.verbosity_property_name) ps ->
  map rename_verbosity (fold_left SecurityLogging.add_property other ps) =
  fold_left SecurityLogging.add_property (map rename_verbosity other)
    (map rename_verbosity ps).
Proof.
  intros Hother. revert ps.
  induction Hother as [|x other Hx Hother IH]; simpl; intros ps Hps.
  - reflexivity.
  - rewrite IH by now apply Forall_add_property.
    now rewrite rename_add_property.
Qed.

(** ** Compositions of the logging passes *)

Section PassCompositions.
Context `{headers : RmwHeaders}.

(** A pass on a collection is the merge of what the pass yields from the
    empty collection, with the same returned value and message. *)
Lemma sequence_pass_as_merge
  (fs : FileSystem) (xml_file_path : string) (target : PropertySeq) (e : rmw_error_state) :
  let result :=
    SecurityLogging.apply_logging_configuration_from_file fs xml_file_path target e in
  let from_empty :=
    SecurityLogging.apply_logging_configuration_from_file fs xml_file_path [] e in
  returned result = returned from_empty /\
  reported result = reported from_empty /\
  updated result = fold_left SecurityLogging.add_property (updated from_empty) target.
Proof.
  intros result from_empty. name_result result Hresult. name_result from_empty Hempty.
  unfold_parsers. split_parsers.
  all: subst result from_empty; unfold_results; repeat split; reflexivity.
Qed.

Lemma policy_pass_as_merge
  (fs : FileSystem) (xml_file_path : string) (policy : PropertyPolicy) (e : rmw_error_state) :
  let result :=
    Security.apply_logging_configuration_from_file fs xml_file_path policy e in
  let from_empty :=
    Security.apply_logging_configuration_from_file fs xml_file_path
      {| properties := [] |} e in
  returned result = returned from_empty /\
  reported result = reported from_empty /\
  properties (updated result) =
    fold_left SecurityLogging.add_property (properties (updated from_empty)) (properties policy).
Proof.
  intros result from_empty. name_result result Hresult. name_result from_empty Hempty.
  unfold_parsers.
  destruct HAVE_SECURITY.
  - split_parsers.
    all: subst result from_empty; unfold_results; repeat split; reflexivity.
  - subst result from_empty; unfold_results; repeat split; reflexivity.
Qed.

(** What the passes yield from the empty collection, compared. *)
Lemma fresh_passes_agree
  (fs : FileSystem) (xml_file_path : string) (e : rmw_error_state) :
  HAVE_SECURITY = true ->
  let in_policy :=
    Security.apply_logging_configuration_from_file fs xml_file_path
      {| properties := [] |} e in
  let in_sequence :=
    SecurityLogging.apply_logging_configuration_from_file fs xml_file_path [] e in
  returned in_policy = returned in_sequence /\
  reported in_policy = reported in_sequence /\
  map rename_verbosity (properties (updated in_policy)) = updated in_sequence /\
  Forall (fun p => name p <> SecurityLogging.verbosity_property_name)
    (properties (updated in_policy)).
Proof.
  intros Hsec in_policy in_sequence.
  name_result in_policy Hpolicy. name_result in_sequence Hsequence.
  unfold_parsers. rewrite Hsec in Hpolicy.
  split_parsers.
  all: subst in_policy in_sequence; unfold_results; cbn [properties].
  all: repeat split; try reflexivity.
  all: repeat constructor; cbn [name]; vm_compute; congruence.
Qed.

(** The sequence a pass yields from the empty collection, in closed
    form. *)
Lemma fresh_sequence_closed_form
  (fs : FileSystem) (xml_file_path : string) (e : rmw_error_state)
  (log_element : XMLNode) :
  FirstChildElement (LoadFile fs xml_file_path) "security_log" = Some log_element ->
  descriptor_well_formed log_element = true ->
  SecurityLogging.apply_logging_configuration_from_file fs xml_file_path [] e =
  (true,
   mkProperty "dds.sec.log.plugin" "builtin.DDS_LogTopic" ::
   entry "dds.sec.log.builtin.DDS_LogTopic.log_file" (field_text log_element "file") ++
   entry "dds.sec.log.builtin.DDS_LogTopic.event_log_level"
     (field_text log_element "verbosity") ++
   entry "dds.sec.log.builtin.DDS_LogTopic.distribute"
     (field_text log_element "distribute") ++
   entry "com.rti.serv.secure.logging.distribute.writer_history_depth"
     (requested_depth log_element),
   e).
Proof.
  intros Hroot.
  unfold_parsers. unfold_fields. unfold requested_depth, field_text. rewrite Hroot.
  split_parsers.
  all: intros Hwell; try discriminate Hwell; reflexivity.
Qed.

Lemma fresh_policy_closed_form
  (fs : FileSystem) (xml_file_path : string) (e : rmw_error_state)
  (log_element : XMLNode) :
  HAVE_SECURITY = true ->
  FirstChildElement (LoadFile fs xml_file_path) "security_log" = Some log_element ->
  descriptor_well_formed log_element = true ->
  Security.apply_logging_configuration_from_file fs xml_file_path {| properties := [] |} e =
  (true,
   {| properties :=
        mkProperty "dds.sec.log.plugin" "builtin.DDS_LogTopic" ::
        entry "dds.sec.log.builtin.DDS_LogTopic.log_file" (field_text log_element "file") ++
        entry "dds.sec.log.builtin.DDS_LogTopic.logging_level"
          (field_text log_element "verbosity") ++
        entry "dds.sec.log.builtin.DDS_LogTopic.distribute"
          (field_text log_element "distribute") ++
        entry "com.rti.serv.secure.logging.distribute.writer_history_depth"
          (requested_depth log_element) |},
   e).
Proof.
  intros Hsec Hroot.
  unfold_parsers. unfold_fields. unfold requested_depth, field_text. rewrite Hsec, Hroot.
  split_parsers.
  all: intros Hwell; try discriminate Hwell; reflexivity.
Qed.

(** What a pass returns and leaves in the collection does not depend on
    the error slot it starts from. *)
Lemma sequence_pass_ignores_slot
  (fs : FileSystem) (xml_file_path : string) (target : PropertySeq)
  (e e' : rmw_error_state) :
  fst (SecurityLogging.apply_logging_configuration_from_file fs xml_file_path target e) =
  fst (SecurityLogging.apply_logging_configuration_from_file fs xml_file_path target e').
Proof.
  unfold_parsers. split_parsers. all: reflexivity.
Qed.

Lemma policy_pass_ignores_slot
  (fs : FileSystem) (xml_file_path : string) (policy : PropertyPolicy)
  (e e' : rmw_error_state) :
  fst (Security.apply_logging_configuration_from_file fs xml_file_path policy e) =
  fst (Security.apply_logging_configuration_from_file fs xml_file_path policy e').
Proof.
  unfold_parsers. destruct HAVE_SECURITY; [|reflexivity].
  split_parsers. all: reflexivity.
Qed.

(** A pass that returns false has written an error; a pass on a document
    with a root that returns true has left the slot alone. *)
Lemma sequence_pass_reports
  (fs : FileSystem) (xml_file_path : string) (target : PropertySeq) (e : rmw_error_state) :
  let result :=
    SecurityLogging.apply_logging_configuration_from_file fs xml_file_path target e in
  (returned result = false -> rmw_error_is_set (reported result) = true) /\
  (FirstChildElement (LoadFile fs xml_file_path) "security_log" <> None ->
   returned result = true -> reported result = e).
Proof.
  intros result. name_result result Hresult.
  unfold_parsers. split_parsers.
  all: subst result; unfold_results; split; intros; try reflexivity; try discriminate.
  all: congruence.
Qed.

Lemma policy_pass_reports
  (fs : FileSystem) (xml_file_path : string) (policy : PropertyPolicy) (e : rmw_error_state) :
  let result :=
    Security.apply_logging_configuration_from_file fs xml_file_path policy e in
  (returned result = false -> rmw_error_is_set (reported result) = true) /\
  (FirstChildElement (LoadFile fs xml_file_path) "security_log" <> None ->
   returned result = true -> reported result = e).
Proof.
  intros result. name_result result Hresult.
  unfold_parsers. destruct HAVE_SECURITY.
  - split_parsers.
    all: subst result; unfold_results; split; intros; try reflexivity; try discriminate.
    all: congruence.
  - subst result; unfold_results; split; intros; try reflexivity; discriminate.
Qed.

(** A pass leaves the lookup of every name it does not write as it was. *)
Lemma sequence_pass_frame
  (fs : FileSystem) (xml_file_path : string) (target : PropertySeq) (e : rmw_error_state)
  (n : string) :
  ~ In n logging_names ->
  lookup_property
    (updated (SecurityLogging.apply_logging_configuration_from_file fs xml_file_path
                target e)) n =
  lookup_property target n.
Proof.
  intros Hnot.
  assert (Hother : forall m, In m logging_names -> m <> n) by (intros m Hm ->; auto).
  unfold_parsers. split_parsers.
  all: unfold_results; try reflexivity.
  all: repeat (rewrite lookup_add_property_other
                 by (apply Hother; cbn; auto 6)); reflexivity.
Qed.

Lemma policy_pass_frame
  (fs : FileSystem) (xml_file_path : string) (policy : PropertyPolicy) (e : rmw_error_state)
  (n : string) :
  ~ In n policy_logging_names ->
  lookup_property
    (properties (updated (Security.apply_logging_configuration_from_file fs xml_file_path
                            policy e))) n =
  lookup_property (properties policy) n.
Proof.
  intros Hnot.
  assert (Hother : forall m, In m policy_logging_names -> m <> n) by (intros m Hm ->; auto).
  unfold_parsers. destruct HAVE_SECURITY; [|reflexivity].
  split_parsers.
  all: unfold_results; cbn [properties]; rewrite ?add_property_same; try reflexivity.
  all: repeat (rewrite lookup_add_property_other
                 by (apply Hother; cbn; auto 6)); reflexivity.
Qed.

End PassCompositions.

(** ** Properties of the logging passes *)

Section PassProperties.
Context `{headers : RmwHeaders}.

(** X4. A logging pass on any collection is the merge, by upserts in
    order, of the sequence the same pass yields from the empty collection;
    the returned value and the message are those of the pass from the
    empty collection. This holds for both modules. *)
Theorem pass_is_a_merge
  (fs : FileSystem) (xml_file_path : string) (e : rmw_error_state) :
  (forall target : PropertySeq,
     let result :=
       SecurityLogging.apply_logging_configuration_from_file fs xml_file_path target e in
     let from_empty :=
       SecurityLogging.apply_logging_configuration_from_file fs xml_file_path [] e in
     returned result = returned from_empty /\
     reported result = reported from_empty /\
     updated result = fold_left SecurityLogging.add_property (updated from_empty) target) /\
  (forall policy : PropertyPolicy,
     let result :=
       Security.apply_logging_configuration_from_file fs xml_file_path policy e in
     let from_empty :=
       Security.apply_logging_configuration_from_file fs xml_file_path
         {| properties := [] |} e in
     returned result = returned from_empty /\
     reported result = reported from_empty /\
     properties (updated result) =
       fold_left Security.add_property (properties (updated from_empty))
         (properties policy)).
Proof.
  split.
  - intros target. apply sequence_pass_as_merge.
  - intros policy. rewrite add_property_same. apply policy_pass_as_merge.
Qed.

(** X5. Running a logging pass on the collection a first pass on the same
    file left changes nothing, whatever the error slot holds in between. *)
Theorem second_pass_changes_nothing
  (fs : FileSystem) (xml_file_path : string) (e e' : rmw_error_state) :
  (forall target : PropertySeq,
     let once :=
       updated (SecurityLogging.apply_logging_configuration_from_file fs xml_file_path
                  target e) in
     updated (SecurityLogging.apply_logging_configuration_from_file fs xml_file_path
                once e') = once) /\
  (forall policy : PropertyPolicy,
     let once :=
       updated (Security.apply_logging_configuration_from_file fs xml_file_path
                  policy e) in
     properties (updated (Security.apply_logging_configuration_from_file fs xml_file_path
                            once e')) = properties once).
Proof.
  split.
  - intros target once. subst once.
    destruct (sequence_pass_as_merge fs xml_file_path target e) as (_ & _ & Hfirst).
    destruct (sequence_pass_as_merge fs xml_file_path
                (updated (SecurityLogging.apply_logging_configuration_from_file
                            fs xml_file_path target e)) e') as (_ & _ & Hsecond).
    cbv zeta in Hfirst, Hsecond. rewrite Hsecond.
    unfold updated at 1.
    rewrite (sequence_pass_ignores_slot fs xml_file_path [] e' e).
    fold (updated (SecurityLogging.apply_logging_configuration_from_file
                     fs xml_file_path [] e)).
    rewrite Hfirst.
    set (produced := updated (SecurityLogging.apply_logging_configuration_from_file
                                fs xml_file_path [] e)).
    assert (Hnd : NoDup (names produced))
      by (apply parse_keeps_sequence_unique; constructor).
    apply merge_found. intros x Hx.
    rewrite (lookup_merge produced target (name x) Hnd).
    now rewrite (lookup_property_unique produced x Hnd Hx).
  - intros policy once. subst once.
    destruct (policy_pass_as_merge fs xml_file_path policy e) as (_ & _ & Hfirst).
    destruct (policy_pass_as_merge fs xml_file_path
                (updated (Security.apply_logging_configuration_from_file
                            fs xml_file_path policy e)) e') as (_ & _ & Hsecond).
    cbv zeta in Hfirst, Hsecond. rewrite Hsecond.
    unfold updated at 1.
    rewrite (policy_pass_ignores_slot fs xml_file_path {| properties := [] |} e' e).
    fold (updated (Security.apply_logging_configuration_from_file
                     fs xml_file_path {| properties := [] |} e)).
    rewrite Hfirst.
    set (produced := properties (updated (Security.apply_logging_configuration_from_file
                                fs xml_file_path {| properties := [] |} e))).
    assert (Hnd : NoDup (names produced))
      by (apply parse_keeps_policy_unique; constructor).
    apply merge_found. intros x Hx.
    rewrite (lookup_merge produced (properties policy) (name x) Hnd).
    now rewrite (lookup_property_unique produced x Hnd Hx).
Qed.

(** X6. On a descriptor on which no step fails, a pass from the empty
    collection returns true, leaves the error slot alone and yields, in this
    order whatever the order of the elements: the plugin property, then one
    property for each of file, verbosity and distribute that is present,
    then the depth property when the qos block asks for a depth (the text of
    its depth child, else the depth of its profile). These are at most five
    entries. The security module differs in the verbosity name only. *)
Theorem pass_yields_the_fields_in_order
  (fs : FileSystem) (xml_file_path : string) (e : rmw_error_state)
  (log_element : XMLNode) :
  FirstChildElement (LoadFile fs xml_file_path) "security_log" = Some log_element ->
  descriptor_well_formed log_element = true ->
  let yielded (verbosity_name : string) :=
    mkProperty "dds.sec.log.plugin" "builtin.DDS_LogTopic" ::
    entry "dds.sec.log.builtin.DDS_LogTopic.log_file" (field_text log_element "file") ++
    entry verbosity_name (field_text log_element "verbosity") ++
    entry "dds.sec.log.builtin.DDS_LogTopic.distribute"
      (field_text log_element "distribute") ++
    entry "com.rti.serv.secure.logging.distribute.writer_history_depth"
      (requested_depth log_element) in
  SecurityLogging.apply_logging_configuration_from_file fs xml_file_path [] e =
    (true, yielded "dds.sec.log.builtin.DDS_LogTopic.event_log_level", e) /\
  (HAVE_SECURITY = true ->
   Security.apply_logging_configuration_from_file fs xml_file_path
     {| properties := [] |} e =
   (true, {| properties := yielded "dds.sec.log.builtin.DDS_LogTopic.logging_level" |},
    e)) /\
  (forall verbosity_name : string, 1 <= length (yielded verbosity_name) <= 5).
Proof.
  intros Hroot Hwell yielded. subst yielded. split; [|split].
  - now apply fresh_sequence_closed_form.
  - intros Hsec. now apply fresh_policy_closed_form.
  - intros verbosity_name.
    destruct (field_text log_element "file"), (field_text log_element "verbosity"),
      (field_text log_element "distribute"), (requested_depth log_element);
      cbn; lia.
Qed.

(** X7. What a logging pass returns and reports depends on the file alone:
    not on the collection it is given, and, with security compiled in, not
    on the module. *)
Theorem outcome_depends_on_the_file_alone
  (fs : FileSystem) (xml_file_path : string) (e : rmw_error_state)
  (target target' : PropertySeq) (policy : PropertyPolicy) :
  let in_target :=
    SecurityLogging.apply_logging_configuration_from_file fs xml_file_path target e in
  let in_other :=
    SecurityLogging.apply_logging_configuration_from_file fs xml_file_path target' e in
  let in_policy :=
    Security.apply_logging_configuration_from_file fs xml_file_path policy e in
  (returned in_target = returned in_other /\ reported in_target = reported in_other) /\
  (HAVE_SECURITY = true ->
   returned in_policy = returned in_target /\ reported in_policy = reported in_target).
Proof.
  intros in_target in_other in_policy. subst in_target in_other in_policy.
  destruct (sequence_pass_as_merge fs xml_file_path target e) as (Hr & He & _).
  destruct (sequence_pass_as_merge fs xml_file_path target' e) as (Hr' & He' & _).
  destruct (policy_pass_as_merge fs xml_file_path policy e) as (Hrp & Hep & _).
  cbv zeta in *. split.
  - split; congruence.
  - intros Hsec.
    destruct (fresh_passes_agree fs xml_file_path e Hsec) as (Hra & Hea & _).
    cbv zeta in *. split; congruence.
Qed.

(** X8. A logging pass that returns false has set an error, in both
    modules; a pass on a document that has a security_log root and that
    returns true leaves the error slot as it found it. *)
Theorem failing_pass_sets_an_error
  (fs : FileSystem) (xml_file_path : string) (e : rmw_error_state) :
  (forall target : PropertySeq,
     let result :=
       SecurityLogging.apply_logging_configuration_from_file fs xml_file_path target e in
     (returned result = false -> rmw_error_is_set (reported result) = true) /\
     (FirstChildElement (LoadFile fs xml_file_path) "security_log" <> None ->
      returned result = true -> reported result = e)) /\
  (forall policy : PropertyPolicy,
     let result :=
       Security.apply_logging_configuration_from_file fs xml_file_path policy e in
     (returned result = false -> rmw_error_is_set (reported result) = true) /\
     (FirstChildElement (LoadFile fs xml_file_path) "security_log" <> None ->
      returned result = true -> reported result = e)).
Proof.
  split.
  - intros target. apply sequence_pass_reports.
  - intros policy. apply policy_pass_reports.
Qed.

(** X9. When file, verbosity and distribute do not stop the pass and the
    text of the profile child is not a name of the catalog, the pass
    returns false, leaves the collection as it was and sets an error whose
    message begins with failed to set security logging profile; a depth
    child is not looked at, so no message about depth is set. How much of
    the name the message keeps is rcutils' matter and is not stated. *)
Theorem unknown_profile_is_reported
  (fs : FileSystem) (xml_file_path : string) (e : rmw_error_state)
  (log_element qos_element profile_element : XMLNode) (profile_str : string)
  (target : PropertySeq) :
  FirstChildElement (LoadFile fs xml_file_path) "security_log" = Some log_element ->
  absent_or_text log_element "file" = true ->
  absent_or_text log_element "verbosity" = true ->
  absent_or_text log_element "distribute" = true ->
  FirstChildElement log_element "qos" = Some qos_element ->
  FirstChildElement qos_element "profile" = Some profile_element ->
  GetText profile_element = Some profile_str ->
  SecurityLogging.string_to_rmw_qos_profile profile_str = None ->
  let result :=
    SecurityLogging.apply_logging_configuration_from_file fs xml_file_path target e in
  returned result = false /\
  updated result = target /\
  exists rest : string,
    reported result = Some ("failed to set security logging profile: " ++ rest)%string.
Proof.
  intros Hroot Hfile Hverbosity Hdistribute Hqos Hprofile Htext Hunknown result.
  subst result.
  unfold_parsers. unfold_fields. rewrite Hroot.
  split_parsers.
  all: unfold_results; repeat split; eexists; reflexivity.
Qed.

(** X10. A logging pass changes the lookup of no name other than the five
    it writes: every other property of the caller is found as before,
    whether the pass succeeds or fails. *)
Theorem pass_touches_only_logging_names
  (fs : FileSystem) (xml_file_path : string) (e : rmw_error_state) (n : string) :
  (~ In n [ "dds.sec.log.plugin"; "dds.sec.log.builtin.DDS_LogTopic.log_file";
            "dds.sec.log.builtin.DDS_LogTopic.event_log_level";
            "dds.sec.log.builtin.DDS_LogTopic.distribute";
            "com.rti.serv.secure.logging.distribute.writer_history_depth" ] ->
   forall target : PropertySeq,
     lookup_property
       (updated (SecurityLogging.apply_logging_configuration_from_file fs xml_file_path
                   target e)) n =
     lookup_property target n) /\
  (~ In n [ "dds.sec.log.plugin"; "dds.sec.log.builtin.DDS_LogTopic.log_file";
            "dds.sec.log.builtin.DDS_LogTopic.logging_level";
            "dds.sec.log.builtin.DDS_LogTopic.distribute";
            "com.rti.serv.secure.logging.distribute.writer_history_depth" ] ->
   forall policy : PropertyPolicy,
     lookup_property
       (properties (updated (Security.apply_logging_configuration_from_file fs
                               xml_file_path policy e))) n =
     lookup_property (properties policy) n).
Proof.
  split.
  - intros Hnot target. now apply sequence_pass_frame.
  - intros Hnot policy. now apply policy_pass_frame.
Qed.

(** X12. With security compiled in, the two parsers agree on every
    collection that does not use the logging module's verbosity name:
    renaming the security module's result gives the logging module's result
    on the renamed collection, with the same returned value and message. *)
Theorem parsers_agree_up_to_renaming
  (fs : FileSystem) (xml_file_path : string) (e : rmw_error_state)
  (policy : PropertyPolicy) :
  HAVE_SECURITY = true ->
  Forall (fun p => name p <> "dds.sec.log.builtin.DDS_LogTopic.event_log_level")
    (properties policy) ->
  let in_policy :=
    Security.apply_logging_configuration_from_file fs xml_file_path policy e in
  let in_sequence :=
    SecurityLogging.apply_logging_configuration_from_file fs xml_file_path
      (map rename_verbosity (properties policy)) e in
  returned in_policy = returned in_sequence /\
  reported in_policy = reported in_sequence /\
  map rename_verbosity (properties (updated in_policy)) = updated in_sequence.
Proof.
  intros Hsec Hfree in_policy in_sequence. subst in_policy in_sequence.
  destruct (policy_pass_as_merge fs xml_file_path policy e) as (Hrp & Hep & Hup).
  destruct (sequence_pass_as_merge fs xml_file_path
              (map rename_verbosity (properties policy)) e) as (Hrs & Hes & Hus).
  destruct (fresh_passes_agree fs xml_file_path e Hsec) as (Hra & Hea & Hmap & Hno).
  cbv zeta in *. split; [congruence|]. split; [congruence|].
  rewrite Hup, Hus, <- Hmap. now apply rename_merge.
Qed.

End PassProperties.

(** ** Properties of the build *)

Section BuildProperties.
Context `{headers : RmwHeaders}.

(** Merging entries whose names are new and pairwise different appends
    them. *)
Lemma merge_of_new_names (other ps : PropertySeq) :
  NoDup (names other) ->
  (forall n, In n (names other) -> ~ In n (names ps)) ->
  fold_left SecurityLogging.add_property other ps = ps ++ other.
Proof.
  revert ps. induction other as [|x other IH]; simpl; intros ps Hnd Hnew.
  - now rewrite app_nil_r.
  - inversion Hnd as [|? ? Hx Hnd']; subst.
    rewrite add_property_absent by (apply Hnew; now left).
    rewrite IH; [now rewrite <- app_assoc | exact Hnd' |].
    intros n Hn Hin. unfold names in Hin. rewrite map_app in Hin.
    apply in_app_or in Hin. destruct Hin as [Hin|[<-|[]]].
    + apply (Hnew n); [now right | exact Hin].
    + contradiction.
Qed.

Lemma policy_eta (policy : PropertyPolicy) : {| properties := properties policy |} = policy.
Proof. now destruct policy. Qed.

Lemma result_eta {A : Type} (r : bool * A * rmw_error_state) :
  r = (returned r, updated r, reported r).
Proof. now destruct r as [[status a] e]. Qed.

(** X11. The caller's entries stay where they are: after a logging pass
    of either module and after [apply_security_options] the names of the
    collection are the names it had, in the same order, followed by the
    names that were added. *)
Theorem callers_names_stay_in_place
  (fs : FileSystem) (xml_file_path : string) (e : rmw_error_state) :
  (forall target : PropertySeq,
     exists added,
       names (updated (SecurityLogging.apply_logging_configuration_from_file fs
                         xml_file_path target e)) = names target ++ added) /\
  (forall policy : PropertyPolicy,
     exists added,
       names (properties (updated (Security.apply_logging_configuration_from_file fs
                                     xml_file_path policy e))) =
       names (properties policy) ++ added) /\
  (forall (security_options : rmw_node_security_options_t) (policy : PropertyPolicy),
     exists added,
       names (properties (updated (Security.apply_security_options fs security_options
                                     policy e))) =
       names (properties policy) ++ added).
Proof.
  assert (Hpolicy : forall (path : string) (policy : PropertyPolicy),
    exists added,
      names (properties (updated (Security.apply_logging_configuration_from_file fs
                                    path policy e))) =
      names (properties policy) ++ added).
  { intros path policy.
    destruct (policy_pass_as_merge fs path policy e) as (_ & _ & Hmerge).
    cbv zeta in Hmerge. rewrite Hmerge. apply merge_keeps_prefix. }
  split; [|split].
  - intros target.
    destruct (sequence_pass_as_merge fs xml_file_path target e) as (_ & _ & Hmerge).
    cbv zeta in Hmerge. rewrite Hmerge. apply merge_keeps_prefix.
  - apply Hpolicy.
  - intros security_options policy.
    assert (Hsame : exists added,
      names (properties policy) = names (properties policy) ++ added)
      by (exists []; now rewrite app_nil_r).
    rewrite apply_security_options_cases.
    destruct (security_root_path security_options) as [root_path|]; [|exact Hsame].
    destruct HAVE_SECURITY; [|exact Hsame].
    cbn zeta.
    destruct (Security.get_security_file_paths fs root_path Security.security_files_default)
      as [found security_files].
    cbn [fst snd]. destruct found.
    + destruct (String.eqb (Security.logging_path security_files) "").
      * exists (names (core_properties security_files)).
        unfold updated. cbn [fst snd properties]. unfold names. apply map_app.
      * destruct (Hpolicy (Security.logging_path security_files)
                    {| properties := properties policy ++ core_properties security_files |})
          as [added Hadded].
        rewrite Hadded. cbn [properties]. unfold names at 1. rewrite map_app.
        exists (names (core_properties security_files) ++ added).
        now rewrite <- app_assoc.
    + now destruct (enforce_security security_options).
Qed.

(** X13. In a build without security support the logging parser of the
    security module and [apply_security_options] with a root path return
    false with the message about the missing libraries, for every file
    system and with or without enforcement, and leave the policy alone. *)
Theorem no_security_support_fails
  (fs : FileSystem) (policy : PropertyPolicy) (e : rmw_error_state) :
  HAVE_SECURITY = false ->
  (forall xml_file_path : string,
     Security.apply_logging_configuration_from_file fs xml_file_path policy e =
     (false, policy, Some security_unavailable_message)) /\
  (forall (enforced : bool) (root_path : string),
     Security.apply_security_options fs
       {| enforce_security := enforced; security_root_path := Some root_path |} policy e =
     (false, policy, Some security_unavailable_message)).
Proof.
  intros Hsec. split.
  - intros xml_file_path. unfold Security.apply_logging_configuration_from_file.
    now rewrite Hsec.
  - intros enforced root_path. rewrite apply_security_options_cases.
    cbn [security_root_path]. now rewrite Hsec.
Qed.

(** X14. When the files are resolved and the caller's policy holds none
    of the nine core names, each core property is found under its name in
    the policy the call leaves, whether the logging pass ran, succeeded or
    failed: the logging pass overwrites no core property. *)
Theorem core_properties_survive_the_logging_pass
  (fs : FileSystem) (security_options : rmw_node_security_options_t)
  (policy : PropertyPolicy) (e : rmw_error_state)
  (root_path : string) (security_files : Security.security_files_t)
  (core_property : Property) :
  HAVE_SECURITY = true ->
  security_root_path security_options = Some root_path ->
  Security.get_security_file_paths fs root_path Security.security_files_default =
    (true, security_files) ->
  (forall n : string, In n core_names -> ~ In n (names (properties policy))) ->
  In core_property (core_properties security_files) ->
  lookup_property
    (properties (updated (Security.apply_security_options fs security_options policy e)))
    (name core_property) = Some core_property.
Proof.
  intros Hsec Hroot Hfound Hfree Hcore.
  assert (Hname : In (name core_property) core_names)
    by (change core_names with (names (core_properties security_files));
        now apply in_map).
  assert (Hbefore : lookup_property (properties policy ++ core_properties security_files)
                      (name core_property) = Some core_property).
  { rewrite lookup_property_app.
    rewrite (lookup_property_absent _ _ (Hfree _ Hname)).
    apply lookup_property_unique; [exact NoDup_core_names | exact Hcore]. }
  rewrite apply_security_options_cases, Hroot, Hsec. cbn zeta. rewrite Hfound.
  cbn [fst snd].
  destruct (String.eqb (Security.logging_path security_files) "").
  - exact Hbefore.
  - rewrite policy_pass_frame; [exact Hbefore|].
    clear - Hname. revert Hname. generalize (name core_property) as m.
    intros m Hname Hin. unfold core_names in Hname. cbn in Hname, Hin.
    repeat (destruct Hname as [<-|Hname]; [intuition discriminate|]).
    contradiction.
Qed.

(** X15. Whenever [apply_security_options] returns false an error is
    set. *)
Theorem failing_build_sets_an_error
  (fs : FileSystem) (security_options : rmw_node_security_options_t)
  (policy : PropertyPolicy) (e : rmw_error_state) :
  let result := Security.apply_security_options fs security_options policy e in
  returned result = false -> rmw_error_is_set (reported result) = true.
Proof.
  intros result. subst result. rewrite apply_security_options_cases.
  destruct (security_root_path security_options) as [root_path|]; [|discriminate].
  destruct HAVE_SECURITY; [|reflexivity].
  cbn zeta.
  destruct (Security.get_security_file_paths fs root_path Security.security_files_default)
    as [found security_files].
  cbn [fst snd]. destruct found.
  - destruct (String.eqb (Security.logging_path security_files) ""); [discriminate|].
    apply policy_pass_reports.
  - destruct (enforce_security security_options); [reflexivity|discriminate].
Qed.

(** X16. The boolean [get_security_file_paths] returns does not depend on
    the structure it is given, and no member at or past a failing lookup is
    written: when the lookup of one of the six mandatory files fails, the
    member of that file and every member after it, the logging path
    included, are the caller's. *)
Theorem failed_resolution_writes_no_later_member
  (fs : FileSystem) (node_secure_root : string)
  (security_files other_files : Security.security_files_t) :
  let result := Security.get_security_file_paths fs node_secure_root security_files in
  fst result = fst (Security.get_security_file_paths fs node_secure_root other_files) /\
  (Security.get_security_file_path fs node_secure_root "identity_ca.cert.pem" = None ->
   Security.identity_ca_cert_path (snd result) = Security.identity_ca_cert_path security_files /\
   Security.permissions_ca_cert_path (snd result) = Security.permissions_ca_cert_path security_files /\
   Security.governance_path (snd result) = Security.governance_path security_files /\
   Security.cert_path (snd result) = Security.cert_path security_files /\
   Security.key_path (snd result) = Security.key_path security_files /\
   Security.permissions_path (snd result) = Security.permissions_path security_files /\
   Security.logging_path (snd result) = Security.logging_path security_files) /\
  (Security.get_security_file_path fs node_secure_root "permissions_ca.cert.pem" = None ->
   Security.permissions_ca_cert_path (snd result) = Security.permissions_ca_cert_path security_files /\
   Security.governance_path (snd result) = Security.governance_path security_files /\
   Security.cert_path (snd result) = Security.cert_path security_files /\
   Security.key_path (snd result) = Security.key_path security_files /\
   Security.permissions_path (snd result) = Security.permissions_path security_files /\
   Security.logging_path (snd result) = Security.logging_path security_files) /\
  (Security.get_security_file_path fs node_secure_root "governance.p7s" = None ->
   Security.governance_path (snd result) = Security.governance_path security_files /\
   Security.cert_path (snd result) = Security.cert_path security_files /\
   Security.key_path (snd result) = Security.key_path security_files /\
   Security.permissions_path (snd result) = Security.permissions_path security_files /\
   Security.logging_path (snd result) = Security.logging_path security_files) /\
  (Security.get_security_file_path fs node_secure_root "cert.pem" = None ->
   Security.cert_path (snd result) = Security.cert_path security_files /\
   Security.key_path (snd result) = Security.key_path security_files /\
   Security.permissions_path (snd result) = Security.permissions_path security_files /\
   Security.logging_path (snd result) = Security.logging_path security_files) /\
  (Security.get_security_file_path fs node_secure_root "key.pem" = None ->
   Security.key_path (snd result) = Security.key_path security_files /\
   Security.permissions_path (snd result) = Security.permissions_path security_files /\
   Security.logging_path (snd result) = Security.logging_path security_files) /\
  (Security.get_security_file_path fs node_secure_root "permissions.p7s" = None ->
   Security.permissions_path (snd result) = Security.permissions_path security_files /\
   Security.logging_path (snd result) = Security.logging_path security_files).
Proof.
  intros result. subst result.
  unfold Security.get_security_file_paths,
    Security.identity_ca_cert_file_name, Security.permissions_ca_cert_file_name,
    Security.governance_file_name, Security.cert_file_name, Security.key_file_name,
    Security.permissions_file_name, Security.logging_file_name.
  split_file_lookups; cbn [fst snd]; repeat split; intros; try reflexivity;
    discriminate.
Qed.

(** X17. With the files resolved, a logging file whose descriptor no step
    fails on, and a policy that holds none of the five logging names,
    [apply_security_options] returns true, leaves the error slot alone,
    and leaves the caller's properties followed by the nine core properties
    followed by the logging entries in their fixed order. *)
Theorem build_appends_core_then_logging
  (fs : FileSystem) (security_options : rmw_node_security_options_t)
  (policy : PropertyPolicy) (e : rmw_error_state)
  (root_path : string) (security_files : Security.security_files_t)
  (log_element : XMLNode) :
  HAVE_SECURITY = true ->
  security_root_path security_options = Some root_path ->
  Security.get_security_file_paths fs root_path Security.security_files_default =
    (true, security_files) ->
  Security.logging_path security_files <> "" ->
  FirstChildElement (LoadFile fs (Security.logging_path security_files)) "security_log" =
    Some log_element ->
  descriptor_well_formed log_element = true ->
  (forall n : string, In n policy_logging_names -> ~ In n (names (properties policy))) ->
  Security.apply_security_options fs security_options policy e =
  (true,
   {| properties :=
        properties policy ++ core_properties security_files ++
        mkProperty "dds.sec.log.plugin" "builtin.DDS_LogTopic" ::
        entry "dds.sec.log.builtin.DDS_LogTopic.log_file" (field_text log_element "file") ++
        entry "dds.sec.log.builtin.DDS_LogTopic.logging_level"
          (field_text log_element "verbosity") ++
        entry "dds.sec.log.builtin.DDS_LogTopic.distribute"
          (field_text log_element "distribute") ++
        entry "com.rti.serv.secure.logging.distribute.writer_history_depth"
          (requested_depth log_element) |},
   e).
Proof.
  intros Hsec Hroot Hfound Hlog Helement Hwell Hfree.
  rewrite apply_security_options_cases, Hroot, Hsec. cbn zeta. rewrite Hfound.
  cbn [fst snd]. apply String.eqb_neq in Hlog as ->.
  set (core := {| properties := properties policy ++ core_properties security_files |}).
  rewrite (result_eta (Security.apply_logging_configuration_from_file fs
                         (Security.logging_path security_files) core e)).
  destruct (policy_pass_as_merge fs (Security.logging_path security_files) core e)
    as (Hreturned & Hreported & Hupdated).
  cbv zeta in Hreturned, Hreported, Hupdated.
  rewrite Hreturned, Hreported, <- (policy_eta (updated _)), Hupdated.
  rewrite (fresh_policy_closed_form fs (Security.logging_path security_files) e
             log_element Hsec Helement Hwell).
  unfold returned, updated, reported. cbn [fst snd properties].
  f_equal. f_equal. f_equal.
  rewrite merge_of_new_names.
  - subst core. cbn [properties]. now rewrite <- app_assoc.
  - destruct (field_text log_element "file"), (field_text log_element "verbosity"),
      (field_text log_element "distribute"), (requested_depth log_element);
      cbn; repeat (constructor; [cbn [In]; intuition discriminate|]); constructor.
  - intros n Hn Hin. subst core. cbn [properties] in Hin.
    unfold names in Hin. rewrite map_app in Hin. apply in_app_or in Hin.
    assert (Hlogging : In n policy_logging_names).
    { clear - Hn.
      destruct (field_text log_element "file"), (field_text log_element "verbosity"),
        (field_text log_element "distribute"), (requested_depth log_element);
        cbn in Hn |- *; intuition. }
    destruct Hin as [Hin|Hin].
    + now apply (Hfree n Hlogging).
    + clear - Hlogging Hin. cbn in Hlogging, Hin.
      repeat (destruct Hlogging as [<-|Hlogging]; [intuition discriminate|]).
      contradiction.
Qed.

End BuildProperties.

(** ** The statements at sample inputs *)

#[local] Existing Instance rmw_release.

(** C1 at [override_descriptor], where depth stands before profile: both
    parsers succeed and the depth property is 42, not the 10 of DEFAULT. *)
Lemma explicit_depth_overrides_profile_witness :
  returned (SecurityLogging.apply_logging_configuration_from_file
              (complete_root override_descriptor) "logging.xml" [] None) = true /\
  lookup_property
    (updated (SecurityLogging.apply_logging_configuration_from_file
                (complete_root override_descriptor) "logging.xml" [] None))
    "com.rti.serv.secure.logging.distribute.writer_history_depth" =
  Some (mkProperty "com.rti.serv.secure.logging.distribute.writer_history_depth" "42") /\
  lookup_property
    (properties
       (updated (Security.apply_logging_configuration_from_file
                   (complete_root override_descriptor) "logging.xml"
                   {| properties := [] |} None)))
    "com.rti.serv.secure.logging.distribute.writer_history_depth" =
  Some (mkProperty "com.rti.serv.secure.logging.distribute.writer_history_depth" "42").
Proof.
  destruct (explicit_depth_overrides_profile
              (complete_root override_descriptor) "logging.xml" None
              (security_log
                 [ text_element "file" "foo";
                   element "qos" [text_element "depth" "42"; text_element "profile" "DEFAULT"] ])
              (element "qos" [text_element "depth" "42"; text_element "profile" "DEFAULT"])
              (text_element "profile" "DEFAULT") (text_element "depth" "42")
              "DEFAULT" "42" rmw_qos_profile_default
              eq_refl eq_refl eq_refl eq_refl eq_refl eq_refl eq_refl)
    as [Hsequence Hpolicy].
  destruct (Hsequence []) as (Hok & Hdepth & _).
  destruct (Hpolicy eq_refl {| properties := [] |}) as (Hok' & Hdepth' & _).
  split; [|split].
  - apply Hok. reflexivity.
  - apply Hdepth. apply Hok. reflexivity.
  - apply Hdepth'. apply Hok'. reflexivity.
Defined.



(** C3 (the code) at a logging.xml that cannot be read: both parsers set
    the error and return true. *)
Lemma missing_root_returns_RMW_RET_ERROR_witness :
  SecurityLogging.apply_logging_configuration_from_file
    (complete_root unreadable_document) "logging.xml" [] None =
  (true, [], Some "logger xml file missing 'security_log'") /\
  Security.apply_logging_configuration_from_file
    (complete_root unreadable_document) "logging.xml" {| properties := [] |} None =
  (true, {| properties := [] |}, Some "logger xml file missing 'security_log'").
Proof.
  destruct (missing_root_returns_RMW_RET_ERROR (headers := rmw_release)
              (complete_root unreadable_document) "logging.xml" None)
    as (Hunreadable & Hmissing & Hnonzero).
  destruct (Hmissing (Hunreadable eq_refl)) as (Hsequence & Hpolicy).
  assert (Htrue : bool_of_int RMW_RET_ERROR = true)
    by (apply Hnonzero; discriminate).
  split.
  - rewrite (Hsequence []). now rewrite Htrue.
  - rewrite (Hpolicy eq_refl {| properties := [] |}). now rewrite Htrue.
Defined.

(** What follows from it in [apply_security_options]: below a root whose
    logging.xml cannot be parsed, an enforcing call returns true with the
    nine core properties and the error set. *)
Example unreadable_logging_file_passes_the_build :
  returned (Security.apply_security_options (complete_root unreadable_document)
              (enforce "/keys") {| properties := [] |} None) = true /\
  reported (Security.apply_security_options (complete_root unreadable_document)
              (enforce "/keys") {| properties := [] |} None) =
    Some "logger xml file missing 'security_log'".
Proof. split; reflexivity. Qed.

(** C4 at a root without governance.p7s, and without a root. *)
Lemma enforcement_gates_missing_files_witness :
  Security.apply_security_options (root_without "/keys/governance.p7s")
    (enforce "/keys") {| properties := [] |} None =
  (false, {| properties := [] |}, Some "couldn't find all security files!") /\
  Security.apply_security_options (root_without "/keys/governance.p7s")
    (permissive "/keys") {| properties := [] |} None =
  (true, {| properties := [] |}, None) /\
  Security.apply_security_options (complete_root full_descriptor)
    {| enforce_security := true; security_root_path := None |}
    {| properties := [] |} None =
  (true, {| properties := [] |}, None).
Proof.
  split; [|split].
  - destruct (enforcement_gates_missing_files (root_without "/keys/governance.p7s")
                (enforce "/keys") {| properties := [] |} None) as [_ Hroot].
    destruct (Hroot eq_refl "/keys" eq_refl eq_refl) as (_ & _ & _ & Henforced).
    apply Henforced. reflexivity.
  - destruct (enforcement_gates_missing_files (root_without "/keys/governance.p7s")
                (permissive "/keys") {| properties := [] |} None) as [_ Hroot].
    destruct (Hroot eq_refl "/keys" eq_refl eq_refl) as (_ & _ & Hpermissive & _).
    apply Hpermissive. reflexivity.
  - destruct (enforcement_gates_missing_files (complete_root full_descriptor)
                {| enforce_security := true; security_root_path := None |}
                {| properties := [] |} None) as [Hnone _].
    apply Hnone. reflexivity.
Defined.

(** C5 at a root with the six mandatory files and no logging.xml. *)
Lemma core_properties_of_resolved_files_witness :
  Security.apply_security_options (root_without "/keys/logging.xml")
    (enforce "/keys") {| properties := [] |} None =
  (true,
   {| properties :=
        [ mkProperty "dds.sec.auth.plugin" "builtin.PKI-DH";
          mkProperty "dds.sec.auth.builtin.PKI-DH.identity_ca"
            "file:///keys/identity_ca.cert.pem";
          mkProperty "dds.sec.auth.builtin.PKI-DH.identity_certificate"
            "file:///keys/cert.pem";
          mkProperty "dds.sec.auth.builtin.PKI-DH.private_key" "file:///keys/key.pem";
          mkProperty "dds.sec.crypto.plugin" "builtin.AES-GCM-GMAC";
          mkProperty "dds.sec.access.plugin" "builtin.Access-Permissions";
          mkProperty "dds.sec.access.builtin.Access-Permissions.permissions_ca"
            "file:///keys/permissions_ca.cert.pem";
          mkProperty "dds.sec.access.builtin.Access-Permissions.governance"
            "file:///keys/governance.p7s";
          mkProperty "dds.sec.access.builtin.Access-Permissions.permissions"
            "file:///keys/permissions.p7s" ] |},
   None).
Proof.
  destruct (core_properties_of_resolved_files (headers := rmw_release)
              (root_without "/keys/logging.xml")
              (enforce "/keys") {| properties := [] |} None "/keys"
              (snd (Security.get_security_file_paths (root_without "/keys/logging.xml")
                      "/keys" Security.security_files_default))
              eq_refl eq_refl eq_refl) as (Hplain & _).
  rewrite Hplain; reflexivity.
Defined.

(** C6 does not hold as stated: below a root without governance.p7s the
    function returns false and the caller's fresh structure holds the two
    paths found before the failing lookup. *)
Lemma paths_found_before_the_failure_are_left :
  Security.get_security_file_paths (root_without "/keys/governance.p7s") "/keys"
    Security.security_files_default =
  (false,
   {| Security.identity_ca_cert_path := "/keys/identity_ca.cert.pem";
      Security.permissions_ca_cert_path := "/keys/permissions_ca.cert.pem";
      Security.governance_path := "";
      Security.cert_path := "";
      Security.key_path := "";
      Security.permissions_path := "";
      Security.logging_path := "" |}) /\
  snd (Security.get_security_file_paths (root_without "/keys/governance.p7s") "/keys"
         Security.security_files_default) <> Security.security_files_default.
Proof.
  split; [reflexivity|].
  intros Hx. discriminate Hx.
Qed.

(** C6, as amended, at a root without governance.p7s and at a root
    without logging.xml. *)
Lemma mandatory_files_decide_resolution_witness :
  fst (Security.get_security_file_paths (root_without "/keys/governance.p7s") "/keys"
         Security.security_files_default) = false /\
  Security.get_security_file_paths (root_without "/keys/governance.p7s") "/keys"
    Security.security_files_default =
  (false,
   {| Security.identity_ca_cert_path := "/keys/identity_ca.cert.pem";
      Security.permissions_ca_cert_path := "/keys/permissions_ca.cert.pem";
      Security.governance_path := "";
      Security.cert_path := "";
      Security.key_path := "";
      Security.permissions_path := "";
      Security.logging_path := "" |}) /\
  fst (Security.get_security_file_paths (root_without "/keys/logging.xml") "/keys"
         Security.security_files_default) = true /\
  Security.logging_path
    (snd (Security.get_security_file_paths (root_without "/keys/logging.xml") "/keys"
            Security.security_files_default)) = "".
Proof.
  split; [|split; [|split]].
  - destruct (mandatory_files_decide_resolution (root_without "/keys/governance.p7s")
                "/keys" Security.security_files_default) as (Hfails & _).
    apply Hfails. exists "governance.p7s". split; [cbn; auto|reflexivity].
  - destruct (mandatory_files_decide_resolution (root_without "/keys/governance.p7s")
                "/keys" Security.security_files_default)
      as (_ & _ & _ & _ & _ & _ & Hgovernance & _).
    exact (Hgovernance "/keys/identity_ca.cert.pem" "/keys/permissions_ca.cert.pem"
             eq_refl eq_refl eq_refl).
  - reflexivity.
  - destruct (mandatory_files_decide_resolution (root_without "/keys/logging.xml")
                "/keys" Security.security_files_default) as (_ & Hfound & _).
    destruct (Hfound eq_refl) as (_ & _ & _ & _ & _ & _ & Hlogging).
    rewrite Hlogging. reflexivity.
Defined.

(** C7 does not hold for [apply_security_options]: a policy that already
    names dds.sec.auth.plugin, once, holds the name twice after a
    successful call. *)
Lemma build_appends_a_present_name :
  NoDup (names [mkProperty "dds.sec.auth.plugin" "builtin.PKI-DH"]) /\
  returned (Security.apply_security_options (root_without "/keys/logging.xml")
              (enforce "/keys")
              {| properties := [mkProperty "dds.sec.auth.plugin" "builtin.PKI-DH"] |} None)
    = true /\
  ~ NoDup (names (properties
      (updated (Security.apply_security_options (root_without "/keys/logging.xml")
                  (enforce "/keys")
                  {| properties := [mkProperty "dds.sec.auth.plugin" "builtin.PKI-DH"] |}
                  None)))).
Proof.
  split; [|split].
  - repeat constructor. intros [].
  - reflexivity.
  - intros Hnd. vm_compute in Hnd.
    inversion Hnd as [|first rest Hnot _]. apply Hnot. now left.
Qed.

(** C7, as amended, on samples: an upsert in the middle of a sequence, an
    upsert of a new name, and a merge followed by a logging pass of each
    module. *)
Lemma upsert_keeps_names_unique_witness :
  SecurityLogging.add_property
    [mkProperty "a" "1"; mkProperty "b" "2"; mkProperty "c" "3"] (mkProperty "b" "9") =
    [mkProperty "a" "1"; mkProperty "b" "9"; mkProperty "c" "3"] /\
  SecurityLogging.add_property [mkProperty "a" "1"] (mkProperty "b" "2") =
    [mkProperty "a" "1"; mkProperty "b" "2"] /\
  NoDup (names (fold_left perform
    [ Merge [mkProperty "b" "2"; mkProperty "a" "3"];
      ParseLogging (complete_root full_descriptor) "logging.xml" None;
      ParseLoggingIntoPolicy (complete_root override_descriptor) "logging.xml" None;
      Upsert (mkProperty "dds.sec.log.plugin" "none") ]
    [mkProperty "a" "1"])) /\
  NoDup (names (properties (updated
    (Security.apply_security_options (complete_root full_descriptor) (enforce "/keys")
       {| properties := [mkProperty "dds.sec.log.plugin" "none"] |} None)))).
Proof.
  destruct (upsert_keeps_names_unique (headers := rmw_release))
    as (Hpresent & Habsent & _ & Hsequence & Hbuild).
  split; [|split; [|split]].
  - destruct (Hpresent [mkProperty "a" "1"; mkProperty "b" "2"; mkProperty "c" "3"]
                (mkProperty "b" "9")) as (before & old & after & _ & _ & _ & Hadd).
    + cbn. auto.
    + reflexivity.
  - apply (Habsent [mkProperty "a" "1"] (mkProperty "b" "2")).
    cbn. intros [Hx|[]]. discriminate Hx.
  - apply Hsequence. repeat constructor. intros [].
  - apply Hbuild.
    + repeat constructor. intros [].
    + intros n Hcore Hin. cbn in Hin. destruct Hin as [<-|[]].
      cbn in Hcore. intuition discriminate.
Defined.



(** C10 at [full_descriptor]: the two sequences differ in the name of the
    verbosity entry only. *)
Lemma parsers_differ_in_verbosity_name_witness :
  properties
    (updated (Security.apply_logging_configuration_from_file
                (complete_root full_descriptor) "logging.xml" {| properties := [] |} None)) =
  [ mkProperty "dds.sec.log.plugin" "builtin.DDS_LogTopic";
    mkProperty "dds.sec.log.builtin.DDS_LogTopic.log_file" "foo";
    mkProperty "dds.sec.log.builtin.DDS_LogTopic.logging_level" "CRITICAL";
    mkProperty "dds.sec.log.builtin.DDS_LogTopic.distribute" "true";
    mkProperty "com.rti.serv.secure.logging.distribute.writer_history_depth" "10" ] /\
  updated (SecurityLogging.apply_logging_configuration_from_file
             (complete_root full_descriptor) "logging.xml" [] None) =
  [ mkProperty "dds.sec.log.plugin" "builtin.DDS_LogTopic";
    mkProperty "dds.sec.log.builtin.DDS_LogTopic.log_file" "foo";
    mkProperty "dds.sec.log.builtin.DDS_LogTopic.event_log_level" "CRITICAL";
    mkProperty "dds.sec.log.builtin.DDS_LogTopic.distribute" "true";
    mkProperty "com.rti.serv.secure.logging.distribute.writer_history_depth" "10" ].
Proof.
  pose proof (parsers_differ_in_verbosity_name (headers := rmw_release)
                (complete_root full_descriptor) "logging.xml" None eq_refl) as Hsame.
  cbv zeta in Hsame.
  destruct Hsame as (_ & _ & _ & Hrenamed & _).
  split.
  - reflexivity.
  - rewrite <- Hrenamed. reflexivity.
Defined.

(** C8 with the depths of the released profiles: DEFAULT resolves, and its
    derived property has value 10. *)
Example default_profile_depth :
  option_map (SecurityLogging.add_properties_from_qos_profile [])
    (SecurityLogging.string_to_rmw_qos_profile "DEFAULT") =
  Some [mkProperty "com.rti.serv.secure.logging.distribute.writer_history_depth" "10"].
Proof. reflexivity. Qed.

(** ** The further properties at sample inputs *)

(** X2 on a sequence that holds the name in second place. *)
Lemma last_upsert_wins_witness :
  SecurityLogging.add_property
    (SecurityLogging.add_property [mkProperty "a" "1"; mkProperty "b" "2"]
       (mkProperty "b" "3"))
    (mkProperty "b" "4") =
  [mkProperty "a" "1"; mkProperty "b" "4"].
Proof.
  rewrite (last_upsert_wins [mkProperty "a" "1"; mkProperty "b" "2"]
             (mkProperty "b" "3") (mkProperty "b" "4") eq_refl).
  reflexivity.
Defined.

(** X3 on a merge that overwrites one entry and appends another. *)
Lemma merge_is_idempotent_witness :
  fold_left SecurityLogging.add_property [mkProperty "b" "2"; mkProperty "c" "3"]
    [mkProperty "a" "1"; mkProperty "b" "2"; mkProperty "c" "3"] =
  [mkProperty "a" "1"; mkProperty "b" "2"; mkProperty "c" "3"].
Proof.
  assert (Hnd : NoDup (names [mkProperty "b" "2"; mkProperty "c" "3"])).
  { repeat (constructor; [cbn [In]; intuition discriminate|]). constructor. }
  exact (merge_is_idempotent [mkProperty "b" "2"; mkProperty "c" "3"]
           [mkProperty "a" "1"; mkProperty "b" "0"] Hnd).
Defined.

(** X6 at the descriptors of the tests [test_all] and [test_profile]. *)
Lemma pass_yields_the_fields_in_order_witness :
  SecurityLogging.apply_logging_configuration_from_file
    (complete_root full_descriptor) "logging.xml" [] None =
  (true,
   [ mkProperty "dds.sec.log.plugin" "builtin.DDS_LogTopic";
     mkProperty "dds.sec.log.builtin.DDS_LogTopic.log_file" "foo";
     mkProperty "dds.sec.log.builtin.DDS_LogTopic.event_log_level" "CRITICAL";
     mkProperty "dds.sec.log.builtin.DDS_LogTopic.distribute" "true";
     mkProperty "com.rti.serv.secure.logging.distribute.writer_history_depth" "10" ],
   None) /\
  Security.apply_logging_configuration_from_file
    (complete_root profile_descriptor) "logging.xml" {| properties := [] |} None =
  (true,
   {| properties :=
        [ mkProperty "dds.sec.log.plugin" "builtin.DDS_LogTopic";
          mkProperty "com.rti.serv.secure.logging.distribute.writer_history_depth"
            "10" ] |},
   None).
Proof.
  split.
  - exact (proj1 (pass_yields_the_fields_in_order (headers := rmw_release)
                    (complete_root full_descriptor) "logging.xml" None
                    (security_log
                       [ text_element "file" "foo"; text_element "verbosity" "CRITICAL";
                         text_element "distribute" "true";
                         element "qos" [text_element "depth" "10"] ])
                    eq_refl eq_refl)).
  - exact (proj1 (proj2 (pass_yields_the_fields_in_order (headers := rmw_release)
                    (complete_root profile_descriptor) "logging.xml" None
                    (security_log [element "qos" [text_element "profile" "DEFAULT"]])
                    eq_refl eq_refl)) eq_refl).
Defined.

(** X7 at the descriptor of [test_profile_invalid]: the pass fails alike on
    the empty collection, on another one and in the security module. *)
Lemma outcome_depends_on_the_file_alone_witness :
  returned (SecurityLogging.apply_logging_configuration_from_file
              (complete_root invalid_profile_descriptor) "logging.xml"
              [mkProperty "partition" "a"] None) = false /\
  returned (Security.apply_logging_configuration_from_file
              (complete_root invalid_profile_descriptor) "logging.xml"
              {| properties := [mkProperty "partition" "a"] |} None) = false.
Proof.
  destruct (outcome_depends_on_the_file_alone (headers := rmw_release)
              (complete_root invalid_profile_descriptor) "logging.xml" None
              [mkProperty "partition" "a"] [] {| properties := [mkProperty "partition" "a"] |})
    as [[Hsequence _] Hpolicy].
  destruct (Hpolicy eq_refl) as [Hmodule _].
  split.
  - rewrite Hsequence. reflexivity.
  - rewrite Hmodule, Hsequence. reflexivity.
Defined.

(** X8 at the descriptors of [test_profile_invalid] and [test_all]. *)
Lemma failing_pass_sets_an_error_witness :
  rmw_error_is_set
    (reported (SecurityLogging.apply_logging_configuration_from_file
                 (complete_root invalid_profile_descriptor) "logging.xml" [] None)) = true /\
  reported (Security.apply_logging_configuration_from_file
              (complete_root full_descriptor) "logging.xml" {| properties := [] |} None) =
    None.
Proof.
  destruct (failing_pass_sets_an_error (headers := rmw_release)
              (complete_root invalid_profile_descriptor) "logging.xml" None)
    as [Hsequence _].
  destruct (failing_pass_sets_an_error (headers := rmw_release)
              (complete_root full_descriptor) "logging.xml" None) as [_ Hpolicy].
  split.
  - apply (proj1 (Hsequence [])). reflexivity.
  - apply (proj2 (Hpolicy {| properties := [] |})); [discriminate | reflexivity].
Defined.

(** X9 at the descriptor of [test_profile_invalid], on a collection of one
    entry. *)
Lemma unknown_profile_is_reported_witness :
  returned (SecurityLogging.apply_logging_configuration_from_file
              (complete_root invalid_profile_descriptor) "logging.xml"
              [mkProperty "partition" "a"] None) = false /\
  updated (SecurityLogging.apply_logging_configuration_from_file
             (complete_root invalid_profile_descriptor) "logging.xml"
             [mkProperty "partition" "a"] None) = [mkProperty "partition" "a"].
Proof.
  pose proof (unknown_profile_is_reported (headers := rmw_release)
           (complete_root invalid_profile_descriptor) "logging.xml" None
           (security_log [element "qos" [text_element "profile" "INVALID_PROFILE"]])
           (element "qos" [text_element "profile" "INVALID_PROFILE"])
           (text_element "profile" "INVALID_PROFILE") "INVALID_PROFILE"
           [mkProperty "partition" "a"]
           eq_refl eq_refl eq_refl eq_refl eq_refl eq_refl eq_refl eq_refl) as Hunknown.
  cbv zeta in Hunknown.
  destruct Hunknown as (Hreturned & Hupdated & _).
  split; assumption.
Defined.

(** X10: a property of the caller that is no logging property is found
    unchanged after a pass that overwrites the plugin entry. *)
Lemma pass_touches_only_logging_names_witness :
  lookup_property
    (updated (SecurityLogging.apply_logging_configuration_from_file
                (complete_root full_descriptor) "logging.xml"
                [mkProperty "dds.sec.log.plugin" "none"; mkProperty "partition" "a"] None))
    "partition" = Some (mkProperty "partition" "a").
Proof.
  destruct (pass_touches_only_logging_names (headers := rmw_release)
              (complete_root full_descriptor) "logging.xml" None "partition")
    as [Hsequence _].
  rewrite Hsequence.
  - reflexivity.
  - cbn [In]. intuition discriminate.
Defined.

(** X12 on a policy that already holds a verbosity entry. *)
Lemma parsers_agree_up_to_renaming_witness :
  map rename_verbosity
    (properties
       (updated (Security.apply_logging_configuration_from_file
                   (complete_root full_descriptor) "logging.xml"
                   {| properties :=
                        [mkProperty "dds.sec.log.builtin.DDS_LogTopic.logging_level" "LOW"] |}
                   None))) =
  updated (SecurityLogging.apply_logging_configuration_from_file
             (complete_root full_descriptor) "logging.xml"
             [mkProperty "dds.sec.log.builtin.DDS_LogTopic.event_log_level" "LOW"] None).
Proof.
  assert (Hfree : Forall
    (fun p => name p <> "dds.sec.log.builtin.DDS_LogTopic.event_log_level")
    [mkProperty "dds.sec.log.builtin.DDS_LogTopic.logging_level" "LOW"]).
  { repeat constructor. cbn [name]. discriminate. }
  exact (proj2 (proj2 (parsers_agree_up_to_renaming (headers := rmw_release)
           (complete_root full_descriptor) "logging.xml" None
           {| properties :=
                [mkProperty "dds.sec.log.builtin.DDS_LogTopic.logging_level" "LOW"] |}
           eq_refl Hfree))).
Defined.

(** X13 with the headers of a build without security, below a complete
    root and without enforcement. *)
Lemma no_security_support_fails_witness :
  @Security.apply_security_options rmw_without_security (complete_root full_descriptor)
    (permissive "/keys") {| properties := [] |} None =
  (false, {| properties := [] |}, Some security_unavailable_message).
Proof.
  exact (proj2 (no_security_support_fails (headers := rmw_without_security)
                  (complete_root full_descriptor) {| properties := [] |} None eq_refl)
           false "/keys").
Defined.

(** X14 for the governance property below a complete root with the
    descriptor of [test_all]. *)
Lemma core_properties_survive_the_logging_pass_witness :
  lookup_property
    (properties (updated (Security.apply_security_options (complete_root full_descriptor)
                            (enforce "/keys") {| properties := [] |} None)))
    "dds.sec.access.builtin.Access-Permissions.governance" =
  Some (mkProperty "dds.sec.access.builtin.Access-Permissions.governance"
          "file:///keys/governance.p7s").
Proof.
  refine (core_properties_survive_the_logging_pass (headers := rmw_release)
            (complete_root full_descriptor) (enforce "/keys") {| properties := [] |} None
            "/keys"
            (snd (Security.get_security_file_paths (complete_root full_descriptor) "/keys"
                    Security.security_files_default))
            (mkProperty "dds.sec.access.builtin.Access-Permissions.governance"
               "file:///keys/governance.p7s")
            eq_refl eq_refl eq_refl _ _).
  - intros n _ [].
  - cbn. auto 10.
Defined.

(** X15 below a root without governance.p7s, with enforcement. *)
Lemma failing_build_sets_an_error_witness :
  rmw_error_is_set
    (reported (Security.apply_security_options (root_without "/keys/governance.p7s")
                 (enforce "/keys") {| properties := [] |} None)) = true.
Proof.
  exact (failing_build_sets_an_error (headers := rmw_release)
           (root_without "/keys/governance.p7s") (enforce "/keys")
           {| properties := [] |} None eq_refl).
Defined.

(** X16 below a root without governance.p7s, on a structure whose members
    are all set: the members from governance on keep the caller's values. *)
Lemma failed_resolution_writes_no_later_member_witness :
  snd (Security.get_security_file_paths (root_without "/keys/governance.p7s") "/keys"
         {| Security.identity_ca_cert_path := "a"; Security.permissions_ca_cert_path := "b";
            Security.governance_path := "c"; Security.cert_path := "d";
            Security.key_path := "e"; Security.permissions_path := "f";
            Security.logging_path := "g" |}) =
  {| Security.identity_ca_cert_path := "/keys/identity_ca.cert.pem";
     Security.permissions_ca_cert_path := "/keys/permissions_ca.cert.pem";
     Security.governance_path := "c"; Security.cert_path := "d";
     Security.key_path := "e"; Security.permissions_path := "f";
     Security.logging_path := "g" |}.
Proof.
  pose proof (failed_resolution_writes_no_later_member
                (root_without "/keys/governance.p7s") "/keys"
                {| Security.identity_ca_cert_path := "a";
                   Security.permissions_ca_cert_path := "b";
                   Security.governance_path := "c"; Security.cert_path := "d";
                   Security.key_path := "e"; Security.permissions_path := "f";
                   Security.logging_path := "g" |}
                Security.security_files_default) as Hlater.
  cbv zeta in Hlater.
  destruct Hlater as (_ & _ & _ & Hgovernance & _).
  destruct (Hgovernance eq_refl) as (Hg & Hc & Hk & Hp & Hl).
  destruct (Security.get_security_file_paths _ _ _) as [found files] eqn:Eresult.
  cbn [snd] in *.
  destruct files as [i pc g c k pm l]. cbn in Hg, Hc, Hk, Hp, Hl. subst.
  injection Eresult as _ Hi Hpc. now subst.
Defined.

(** X17 below a complete root with the descriptor of [test_all], from an
    empty policy: fourteen properties. *)
Lemma build_appends_core_then_logging_witness :
  returned (Security.apply_security_options (complete_root full_descriptor)
              (enforce "/keys") {| properties := [] |} None) = true /\
  names (properties (updated (Security.apply_security_options
                                (complete_root full_descriptor) (enforce "/keys")
                                {| properties := [] |} None))) =
  core_names ++ policy_logging_names.
Proof.
  rewrite (build_appends_core_then_logging (headers := rmw_release)
             (complete_root full_descriptor) (enforce "/keys") {| properties := [] |} None
             "/keys"
             (snd (Security.get_security_file_paths (complete_root full_descriptor) "/keys"
                     Security.security_files_default))
             (security_log
                [ text_element "file" "foo"; text_element "verbosity" "CRITICAL";
                  text_element "distribute" "true";
                  element "qos" [text_element "depth" "10"] ])
             eq_refl eq_refl eq_refl ltac:(discriminate) eq_refl eq_refl
             ltac:(intros n _ [])).
  split; reflexivity.
Defined.
